(** * Seat allocation and transactional booking (index.js)

    A shallow embedding of the three handlers of [index.js] that write to
    the seats table -- POST /api/book-seats, POST /api/seats/:seatId/cancel
    and POST /api/admin/reset-all -- together with the SQL they send.

    The reading handlers (GET /api/seats, GET /api/user/bookings), the
    authenticateToken middleware with the routes behind it, and the
    account handlers (signup, login, profile) follow; express-validator,
    bcrypt and jsonwebtoken are parameters of these.

    The seats table is a list of rows in scan order.  Every SQL clause is
    a list function: WHERE is [filter], ORDER BY a stable insertion sort,
    GROUP BY a [filter] per distinct key, LIMIT is [firstn].  SQL leaves
    open the order of rows that tie on an ORDER BY key; a stable sort keeps
    the order of the scan, and the scan follows the list, so a statement
    proved for every list covers every such order.

    What the model takes for granted:
    - the pool hands every query of one request to the same connection, so
      BEGIN, the row locks and COMMIT belong to one transaction;
    - every query succeeds, but for a parameter that PostgreSQL refuses:
      a seatId of cancel beyond INTEGER and an array for numSeats, which
      the catch blocks answer with 500; the other causes of a 500
      (connection, timeout) are left out;
    - the selection queries of one request read the same committed
      ledger; what other sessions commit meanwhile becomes visible when
      the lock statement returns;
    - the outer SELECT ... LIMIT 1 over consecutive_groups keeps the order
      of the ORDER BY inside the CTE;
    - numSeats has passed the validator (an integer from 1 to 7). *)

From Stdlib Require Import Ascii String.
From Stdlib Require Import List ZArith Lia Bool Permutation Sorted.
Import ListNotations.
Local Open Scope Z_scope.

(** ** The seats table (schema in core/db.js) *)

Record seat : Type := mkSeat {
  id : Z;                     (* SERIAL PRIMARY KEY *)
  row_number : Z;             (* INTEGER NOT NULL *)
  seat_number : Z;            (* INTEGER NOT NULL *)
  is_booked : bool;           (* BOOLEAN DEFAULT FALSE *)
  booked_by : option Z;       (* INTEGER REFERENCES users(id), NULL = None *)
  booked_at : option Z        (* TIMESTAMP, NULL = None *)
}.

Definition ledger : Type := list seat.

(** ** SQL clauses as list functions *)

Section Clauses.
Context {A : Type}.

(** ORDER BY: stable insertion sort for the order [leb]. *)
Fixpoint insert_by (leb : A -> A -> bool) (x : A) (l : list A) : list A :=
  match l with
  | [] => [x]
  | y :: l' => if leb x y then x :: l else y :: insert_by leb x l'
  end.

Definition ORDER_BY (leb : A -> A -> bool) (l : list A) : list A :=
  fold_right (insert_by leb) [] l.

(** LIMIT n, for a count that is not negative. *)
Definition LIMIT (n : Z) (l : list A) : list A := firstn (Z.to_nat n) l.

(** COUNT( * ) *)
Definition COUNT (l : list A) : Z := Z.of_nat (length l).

(** Array.prototype.slice(0, n): a negative [n] counts from the end. *)
Definition slice0 (n : Z) (l : list A) : list A :=
  if n <? 0 then firstn (length l - Z.to_nat (- n)) l
  else firstn (Z.to_nat n) l.

(** The distinct values of a column, in order of first appearance. *)
Fixpoint distinct (eqb : A -> A -> bool) (l : list A) : list A :=
  match l with
  | [] => []
  | x :: l' => x :: filter (fun y => negb (eqb y x)) (distinct eqb l')
  end.
End Clauses.

(** GROUP BY [key]: one group per distinct key, holding the rows of that
    key in scan order. *)
Definition GROUP_BY {A K : Type} (eqb : K -> K -> bool) (key : A -> K)
    (rows : list A) : list (K * list A) :=
  map (fun k => (k, filter (fun a => eqb (key a) k) rows))
      (distinct eqb (map key rows)).

Definition pair_eqb (k1 k2 : Z * Z) : bool :=
  (fst k1 =? fst k2) && (snd k1 =? snd k2).

(** WHERE is_booked = FALSE *)
Definition unbooked (db : ledger) : list seat :=
  filter (fun s => negb (is_booked s)) db.

(** id = ANY($1) *)
Definition ANY (ids : list Z) (i : Z) : bool := existsb (Z.eqb i) ids.

Definition by_seat_number (s t : seat) : bool :=
  seat_number s <=? seat_number t.

(** array_agg(id ORDER BY seat_number) *)
Definition array_agg_id (rows : list seat) : list Z :=
  map id (ORDER_BY by_seat_number rows).

(** ** First priority: consecutiveSeatsQuery (index.js 238-262) *)

(** Place of the row with identifier [i] in a list, counted from 0. *)
Fixpoint index_of (i : Z) (l : list seat) : nat :=
  match l with
  | [] => 0
  | t :: l' => if id t =? i then 0 else S (index_of i l')
  end.

(** ROW_NUMBER() OVER (PARTITION BY row_number ORDER BY seat_number): the
    place of [s], counted from 1, in its partition sorted by seat_number. *)
Definition ROW_NUMBER (rows : list seat) (s : seat) : Z :=
  let partition := filter (fun t => row_number t =? row_number s) rows in
  1 + Z.of_nat (index_of (id s) (ORDER_BY by_seat_number partition)).

(** A row of the CTE row_seats: the seat and its grp column. *)
Definition row_seats (db : ledger) : list (seat * Z) :=
  let rows := unbooked db in
  map (fun s => (s, seat_number s - ROW_NUMBER rows s)) rows.

(** A row of the CTE consecutive_groups. *)
Record consecutive_group : Type := mkGroup {
  cg_row_number : Z;
  cg_grp : Z;
  cg_seat_ids : list Z;
  cg_group_size : Z
}.

Definition by_cg_row_number (g h : consecutive_group) : bool :=
  cg_row_number g <=? cg_row_number h.

Definition consecutive_groups (numSeats : Z) (db : ledger)
    : list consecutive_group :=
  let groups :=
    map (fun kg => mkGroup (fst (fst kg)) (snd (fst kg))
                     (array_agg_id (map fst (snd kg)))
                     (COUNT (snd kg)))
        (GROUP_BY pair_eqb (fun r => (row_number (fst r), snd r))
                  (row_seats db)) in
  ORDER_BY by_cg_row_number
    (filter (fun g => numSeats <=? cg_group_size g) groups).

Definition consecutiveSeatsQuery (numSeats : Z) (db : ledger)
    : list consecutive_group :=
  LIMIT 1 (consecutive_groups numSeats db).

(** ** Second priority: rowsWithMaxSeatsQuery (index.js 276-286) *)

Record row_group : Type := mkRowGroup {
  rg_row_number : Z;
  rg_seat_ids : list Z;
  rg_available_seats : Z
}.

(** ORDER BY available_seats DESC, row_number *)
Definition by_available_desc_row (g h : row_group) : bool :=
  (rg_available_seats h <? rg_available_seats g)
  || ((rg_available_seats g =? rg_available_seats h)
      && (rg_row_number g <=? rg_row_number h)).

Definition rows_by_available (db : ledger) : list row_group :=
  ORDER_BY by_available_desc_row
    (map (fun kg => mkRowGroup (fst kg) (array_agg_id (snd kg))
                      (COUNT (snd kg)))
         (GROUP_BY Z.eqb row_number (unbooked db))).

Definition rowsWithMaxSeatsQuery (db : ledger) : list row_group :=
  LIMIT 1 (rows_by_available db).

(** ** nearbySeatsQuery (index.js 302-309) *)

(** ORDER BY ABS(row_number - $2), row_number, seat_number *)
Definition nearby_key (rowNumber : Z) (s : seat) : Z * Z * Z :=
  (Z.abs (row_number s - rowNumber), row_number s, seat_number s).

Definition lex3_leb (a b : Z * Z * Z) : bool :=
  let '(a1, a2, a3) := a in
  let '(b1, b2, b3) := b in
  (a1 <? b1)
  || ((a1 =? b1) && ((a2 <? b2) || ((a2 =? b2) && (a3 <=? b3)))).

Definition by_nearby (rowNumber : Z) (s t : seat) : bool :=
  lex3_leb (nearby_key rowNumber s) (nearby_key rowNumber t).

Definition nearby_order (selectedSeatIds : list Z) (rowNumber : Z)
    (db : ledger) : list seat :=
  ORDER_BY (by_nearby rowNumber)
    (filter (fun s => negb (ANY selectedSeatIds (id s))) (unbooked db)).

Definition nearbySeatsQuery (selectedSeatIds : list Z) (rowNumber : Z)
    (remainingSeats : Z) (db : ledger) : list Z :=
  map id (LIMIT remainingSeats (nearby_order selectedSeatIds rowNumber db)).

(** ** Third priority: anyAvailableSeatsQuery (index.js 324-330) *)

(** ORDER BY row_number, seat_number *)
Definition by_row_seat (s t : seat) : bool :=
  (row_number s <? row_number t)
  || ((row_number s =? row_number t) && (seat_number s <=? seat_number t)).

Definition any_order (db : ledger) : list seat :=
  ORDER_BY by_row_seat (unbooked db).

Definition anyAvailableSeatsQuery (numSeats : Z) (db : ledger) : list Z :=
  map id (LIMIT numSeats (any_order db)).

(** ** The selection of index.js 264-342

    [None] is the path that answers 400 'Not enough seats available';
    [Some selectedSeatIds] is the path that goes on to the lock.  The
    request validator admits numSeats from 1 to 7 only. *)

Definition scattered (numSeats : Z) (db : ledger) : option (list Z) :=
  let anyAvailableSeatsResult := anyAvailableSeatsQuery numSeats db in
  if COUNT anyAvailableSeatsResult <? numSeats then None
  else Some anyAvailableSeatsResult.

Definition bestRowPlusNearby (numSeats : Z) (r : row_group) (db : ledger)
    : option (list Z) :=
  let availableInBestRow := Z.min (rg_available_seats r) numSeats in
  let selectedSeatIds := slice0 availableInBestRow (rg_seat_ids r) in
  let rowNumber := rg_row_number r in
  if availableInBestRow <? numSeats then
    let remainingSeats := numSeats - availableInBestRow in
    let nearbySeatsResult :=
      nearbySeatsQuery selectedSeatIds rowNumber remainingSeats db in
    if COUNT nearbySeatsResult =? remainingSeats
    then Some (selectedSeatIds ++ nearbySeatsResult)
    else None
  else Some selectedSeatIds.

Definition selectSeats (numSeats : Z) (db : ledger) : option (list Z) :=
  match consecutiveSeatsQuery numSeats db with
  | g :: _ => Some (slice0 numSeats (cg_seat_ids g))
  | [] =>
      match rowsWithMaxSeatsQuery db with
      | r :: _ =>
          if 0 <? rg_available_seats r
          then bestRowPlusNearby numSeats r db
          else scattered numSeats db
      | [] => scattered numSeats db
      end
  end.

(** ** The store: one connection with READ COMMITTED transactions

    [committed] is what every session sees; [pending] is the list of this
    session's UPDATE statements since BEGIN, not yet committed.  A read
    sees the committed rows with the session's own updates on top. *)

Inductive update : Type :=
| updateQuery (userId now : Z) (selectedSeatIds : list Z)  (* index.js 361-366 *)
| freeSeat (seatId : Z)                                    (* index.js 457 *)
| freeAll.                                                 (* index.js 481 *)

Definition set_booked (userId now : Z) (s : seat) : seat :=
  mkSeat (id s) (row_number s) (seat_number s) true (Some userId) (Some now).

Definition set_free (s : seat) : seat :=
  mkSeat (id s) (row_number s) (seat_number s) false None None.

Definition apply_update (u : update) (db : ledger) : ledger :=
  match u with
  | updateQuery userId now ids =>
      map (fun s => if ANY ids (id s) then set_booked userId now s else s) db
  | freeSeat seatId =>
      map (fun s => if id s =? seatId then set_free s else s) db
  | freeAll => map set_free db
  end.

Definition apply_updates (us : list update) (db : ledger) : ledger :=
  fold_left (fun d u => apply_update u d) us db.

Record session : Type := mkSession {
  committed : ledger;
  pending : option (list update)
}.

Definition visible (s : session) : ledger :=
  match pending s with
  | Some us => apply_updates us (committed s)
  | None => committed s
  end.

Definition Tx (A : Type) : Type := session -> A * session.

Definition ret {A : Type} (a : A) : Tx A := fun s => (a, s).

Definition bind {A B : Type} (m : Tx A) (k : A -> Tx B) : Tx B :=
  fun s => let (a, s') := m s in k a s'.

Notation "x <- m ;; k" := (bind m (fun x => k))
  (at level 61, m at next level, right associativity).
Notation "m ;; k" := (bind m (fun _ => k))
  (at level 61, right associativity).

Definition BEGIN : Tx unit := fun s =>
  (tt, match pending s with
       | None => mkSession (committed s) (Some [])
       | Some _ => s
       end).

Definition COMMIT : Tx unit := fun s => (tt, mkSession (visible s) None).

Definition ROLLBACK : Tx unit := fun s => (tt, mkSession (committed s) None).

Definition query {A : Type} (q : ledger -> A) : Tx A :=
  fun s => (q (visible s), s).

Definition execute (u : update) : Tx unit := fun s =>
  (tt, match pending s with
       | Some us => mkSession (committed s) (Some (us ++ [u]))
       | None => mkSession (apply_update u (committed s)) None
       end).

(** UPDATE ... RETURNING: the rows [r] of the update, then the update. *)
Definition execute_returning {A : Type} (u : update) (r : ledger -> A)
    : Tx A :=
  rows <- query r ;; execute u ;; ret rows.

(** SELECT id FROM seats WHERE id = ANY($1) FOR UPDATE.  The statement
    waits for the row locks; [racing] is what other sessions committed
    since this one last read, seen from here on. *)
Definition lockQuery (racing : list update) (selectedSeatIds : list Z)
    : Tx (list Z) := fun s =>
  let s' := mkSession (apply_updates racing (committed s)) (pending s) in
  (map id (filter (fun t => ANY selectedSeatIds (id t)) (visible s')), s').

(** SELECT COUNT( * ) FROM seats WHERE id = ANY($1) AND is_booked = TRUE *)
Definition verifyAvailabilityQuery (selectedSeatIds : list Z) (db : ledger)
    : Z :=
  COUNT (filter (fun s => ANY selectedSeatIds (id s) && is_booked s) db).

(** RETURNING id, row_number, seat_number of updateQuery *)
Definition returning (selectedSeatIds : list Z) (db : ledger)
    : list (Z * Z * Z) :=
  map (fun s => (id s, row_number s, seat_number s))
      (filter (fun s => ANY selectedSeatIds (id s)) db).

(** SELECT id, booked_by FROM seats WHERE id = $1 AND is_booked = TRUE
    FOR UPDATE *)
Definition seatQuery (seatId : Z) (db : ledger) : list seat :=
  filter (fun s => (id s =? seatId) && is_booked s) db.

(** ** The handlers *)

Inductive response : Type :=
| Assigned (bookedSeats : list (Z * Z * Z))  (* 200, rows (id, row, seat) *)
| InsufficientCapacity                       (* 400 *)
| ConcurrentConflict                         (* 409 *)
| Released (seatId : Z)                      (* 200 *)
| NotFound                                   (* 404 *)
| Forbidden                                  (* 403 *)
| Reset                                      (* 200 *)
| StorageError.                              (* 500, the catch blocks *)

(** POST /api/book-seats (index.js 234-378) *)
Definition bookSeats (numSeats userId now : Z) (racing : list update)
    : Tx response :=
  BEGIN ;;
  selection <- query (selectSeats numSeats) ;;
  match selection with
  | None => ROLLBACK ;; ret InsufficientCapacity
  | Some selectedSeatIds =>
      lockQuery racing selectedSeatIds ;;
      verifyResult <- query (verifyAvailabilityQuery selectedSeatIds) ;;
      if verifyResult >? 0 then ROLLBACK ;; ret ConcurrentConflict
      else
        bookedSeats <-
          execute_returning (updateQuery userId now selectedSeatIds)
                            (returning selectedSeatIds) ;;
        COMMIT ;;
        ret (Assigned bookedSeats)
  end.

Definition same_user (booked_by : option Z) (userId : Z) : bool :=
  match booked_by with
  | Some u => u =? userId
  | None => false
  end.

(** The values of an INTEGER column.  PostgreSQL refuses a parameter
    compared with such a column when it lies outside: the query throws. *)
Definition int4 (n : Z) : bool :=
  (-2147483648 <=? n) && (n <=? 2147483647).

(** POST /api/seats/:seatId/cancel (index.js 431-471).  seatId is what
    isInt() and parseInt let through: any integer.  When the seatQuery
    throws, the catch block rolls back and answers 500. *)
Definition cancel (seatId userId : Z) : Tx response :=
  BEGIN ;;
  if negb (int4 seatId) then ROLLBACK ;; ret StorageError
  else
    seatResult <- query (seatQuery seatId) ;;
    match seatResult with
    | [] => ROLLBACK ;; ret NotFound
    | seat :: _ =>
        if negb (same_user (booked_by seat) userId)
        then ROLLBACK ;; ret Forbidden
        else execute (freeSeat seatId) ;; COMMIT ;; ret (Released seatId)
    end.

(** POST /api/admin/reset-all (index.js 477-487) *)
Definition resetAll : Tx response :=
  BEGIN ;; execute freeAll ;; COMMIT ;; ret Reset.

(** A handler run on an idle connection: the answer and the committed
    ledger it leaves. *)
Definition run (op : Tx response) (db : ledger) : response * ledger :=
  let (r, s) := op (mkSession db None) in (r, committed s).

(** ** The users table (schema in core/db.js) *)

Record user : Type := mkUser {
  u_id : Z;                   (* SERIAL PRIMARY KEY *)
  u_email : string;           (* VARCHAR(255) UNIQUE NOT NULL *)
  u_password : string;        (* VARCHAR(255) NOT NULL, the bcrypt hash *)
  u_created_at : Z            (* TIMESTAMP DEFAULT CURRENT_TIMESTAMP *)
}.

(** ** GET /api/seats (index.js 173-219)

    The read-only routes send one query outside any transaction; they are
    functions of the committed tables. *)

(** seats s LEFT JOIN users u ON s.booked_by = u.id, for one seat: the
    seat with the email of each matching user, or with NULL when none
    matches. *)
Definition left_join_users (users : list user) (s : seat)
    : list (seat * option string) :=
  match filter (fun u => same_user (booked_by s) (u_id u)) users with
  | [] => [(s, None)]
  | us => map (fun u => (s, Some (u_email u))) us
  end.

(** FROM seats s LEFT JOIN users u ON s.booked_by = u.id
    ORDER BY s.row_number, s.seat_number *)
Definition seatsQuery (users : list user) (db : ledger)
    : list (seat * option string) :=
  ORDER_BY (fun a b => by_row_seat (fst a) (fst b))
    (flat_map (left_join_users users) db).

(** One element of a row's array in the answer. *)
Record seat_entry : Type := mkEntry {
  e_id : Z;
  e_seatNumber : Z;
  e_isBooked : bool;
  e_bookedBy : option (option Z * option string);  (* { id, email } or null *)
  e_bookedAt : option Z
}.

Definition entry_of (r : seat * option string) : seat_entry :=
  let (s, booked_by_email) := r in
  mkEntry (id s) (seat_number s) (is_booked s)
    (if is_booked s then Some (booked_by s, booked_by_email) else None)
    (booked_at s).

(** seatsByRow[row].push(e), after seatsByRow[row] = [] when the key is
    new.  The object is an association list keyed by row number. *)
Fixpoint push_to_row (row : Z) (e : seat_entry)
    (seatsByRow : list (Z * list seat_entry)) : list (Z * list seat_entry) :=
  match seatsByRow with
  | [] => [(row, [e])]
  | (k, es) :: rest =>
      if k =? row then (k, es ++ [e]) :: rest
      else (k, es) :: push_to_row row e rest
  end.

(** seatsByRow[row] *)
Fixpoint row_entries (row : Z) (seatsByRow : list (Z * list seat_entry))
    : option (list seat_entry) :=
  match seatsByRow with
  | [] => None
  | (k, es) :: rest => if k =? row then Some es else row_entries row rest
  end.

Record seats_response : Type := mkSeatsResponse {
  totalSeats : Z;
  bookedSeats : Z;
  availableSeats : Z;
  rows : list (Z * list seat_entry)
}.

Definition listSeats (users : list user) (db : ledger) : seats_response :=
  let result := seatsQuery users db in
  mkSeatsResponse
    (COUNT result)
    (COUNT (filter (fun r => is_booked (fst r)) result))
    (COUNT (filter (fun r => negb (is_booked (fst r))) result))
    (fold_left
       (fun seatsByRow r => push_to_row (row_number (fst r)) (entry_of r)
                              seatsByRow)
       result []).

(** ** GET /api/user/bookings (index.js 387-417) *)

(** ORDER BY booked_at DESC; PostgreSQL puts NULL first in a descending
    order. *)
Definition by_booked_at_desc (s t : seat) : bool :=
  match booked_at s, booked_at t with
  | None, _ => true
  | Some _, None => false
  | Some a, Some b => b <=? a
  end.

(** FROM seats WHERE booked_by = $1 ORDER BY booked_at DESC *)
Definition userBookingsQuery (userId : Z) (db : ledger) : list seat :=
  ORDER_BY by_booked_at_desc
    (filter (fun s => same_user (booked_by s) userId) db).

Record booking : Type := mkBooking {
  b_seatId : Z;
  b_row : Z;
  b_seat : Z;
  b_bookedAt : option Z
}.

Definition userBookings (userId : Z) (db : ledger) : Z * list booking :=
  (userId,
   map (fun s => mkBooking (id s) (row_number s) (seat_number s) (booked_at s))
       (userBookingsQuery userId db)).

(** ** authenticateToken (index.js 40-55) *)

(** String.prototype.split(' ') *)
Fixpoint split_space (s : string) : list string :=
  match s with
  | EmptyString => [EmptyString]
  | String c s' =>
      if Ascii.eqb c " "%char then EmptyString :: split_space s'
      else match split_space s' with
           | w :: ws => String c w :: ws
           | [] => [String c EmptyString]
           end
  end.

(** What a verified token carries for the handlers. *)
Record jwt_payload : Type := mkPayload {
  userId : Z;
  email : string
}.

Inductive auth_result : Type :=
| TokenRequired                 (* 401 'Access token is required' *)
| InvalidToken                  (* 403 'Invalid or expired token' *)
| Next (user : jwt_payload).    (* req.user = user; next() *)

(** authHeader && authHeader.split(' ')[1]: [None] is undefined. *)
Definition token_of (authHeader : option string) : option string :=
  match authHeader with
  | None => None
  | Some h =>
      if String.eqb h EmptyString then Some EmptyString
      else nth_error (split_space h) 1
  end.

(** [jwt_verify] is jwt.verify with the server's secret at the time of the
    request: the payload, or [None] for err. *)
Definition authenticateToken (jwt_verify : string -> option jwt_payload)
    (authHeader : option string) : auth_result :=
  match token_of authHeader with
  | None => TokenRequired
  | Some token =>
      if String.eqb token EmptyString then TokenRequired
      else match jwt_verify token with
           | None => InvalidToken
           | Some user => Next user
           end
  end.

(** ** The seat routes behind their middleware

    app.post(path, authenticateToken, [validators], handler): the handler
    runs when the token is accepted and the validators find no error. *)

Inductive routed (A : Type) : Type :=
| Rejected401
| Rejected403
| Rejected400                   (* { errors: errors.array() } *)
| Handled (answer : A).

Arguments Rejected401 {A}.
Arguments Rejected403 {A}.
Arguments Rejected400 {A}.
Arguments Handled {A} answer.

Definition behind_token {A : Type}
    (jwt_verify : string -> option jwt_payload) (authHeader : option string)
    (handler : jwt_payload -> Tx (routed A)) : Tx (routed A) :=
  match authenticateToken jwt_verify authHeader with
  | TokenRequired => ret Rejected401
  | InvalidToken => ret Rejected403
  | Next user => handler user
  end.

(** numSeats as the JSON body gives it: an integer, or an array of
    integers. *)
Inductive body_value : Type :=
| NumberValue (n : Z)
| ArrayValue (items : list Z).

(** check('numSeats').isInt({ min: 1, max: 7 }): express-validator tests
    a number itself and an array element by element, so that the empty
    array passes. *)
Definition isInt_min1_max7 (v : body_value) : bool :=
  match v with
  | NumberValue n => (1 <=? n) && (n <=? 7)
  | ArrayValue items => forallb (fun n => (1 <=? n) && (n <=? 7)) items
  end.

(** POST /api/book-seats (index.js 222-384).  The handler hands numSeats
    to the first query as it is: an integer goes through the booking; for
    an array the query throws, and the catch block (index.js 379-383)
    rolls back and answers 500. *)
Definition route_book_seats (jwt_verify : string -> option jwt_payload)
    (authHeader : option string) (numSeats : body_value) (now : Z)
    (racing : list update) : Tx (routed response) :=
  behind_token jwt_verify authHeader (fun user =>
    if negb (isInt_min1_max7 numSeats) then ret Rejected400
    else
      match numSeats with
      | NumberValue n =>
          answer <- bookSeats n (userId user) now racing ;;
          ret (Handled answer)
      | ArrayValue _ =>
          BEGIN ;; ROLLBACK ;; ret (Handled StorageError)
      end).

(** POST /api/seats/:seatId/cancel (index.js 420-472), for a seatId that
    is an integer. *)
Definition route_cancel (jwt_verify : string -> option jwt_payload)
    (authHeader : option string) (seatId : Z) : Tx (routed response) :=
  behind_token jwt_verify authHeader (fun user =>
    answer <- cancel seatId (userId user) ;; ret (Handled answer)).

(** POST /api/admin/reset-all (index.js 476-493): no middleware. *)
Definition route_reset_all (authHeader : option string) : Tx (routed response) :=
  answer <- resetAll ;; ret (Handled answer).

(** ** Accounts: signup, login, profile (index.js 58-170)

    express-validator's isEmail and isLength, bcrypt and jsonwebtoken are
    libraries: they are parameters here.  bcrypt.hash draws a salt, which
    is the argument [salt]; jwt.sign stamps the token with the time. *)

Record users_table : Type := mkUsers {
  u_rows : list user;
  u_next_id : Z               (* the next value of the id sequence *)
}.

Inductive account_response : Type :=
| ValidationErrors                          (* 400 *)
| EmailTaken                                (* 409 *)
| Created (newUserId : Z) (token : string)  (* 201 *)
| InvalidCredentials                        (* 401, both causes alike *)
| LoggedIn (loggedUserId : Z) (token : string).  (* 200 *)

(** .matches(/[a-z]/), .matches(/[A-Z]/), .matches(/[0-9]/) *)
Fixpoint has_char_in (lo hi : nat) (s : string) : bool :=
  match s with
  | EmptyString => false
  | String c s' =>
      ((lo <=? nat_of_ascii c)%nat && (nat_of_ascii c <=? hi)%nat)
      || has_char_in lo hi s'
  end.

Section Accounts.
Variable isEmail : string -> bool.
Variable isLength_min8 : string -> bool.
Variable bcrypt_hash : string -> string -> string.
Variable bcrypt_compare : string -> string -> bool.
Variable jwt_sign : jwt_payload -> Z -> string.

Definition signup_valid (email password : string) : bool :=
  isEmail email
  && isLength_min8 password
  && has_char_in 97 122 password
  && has_char_in 65 90 password
  && has_char_in 48 57 password.

(** SELECT ... FROM users WHERE email = $1 *)
Definition users_by_email (email : string) (t : users_table) : list user :=
  filter (fun u => String.eqb (u_email u) email) (u_rows t).

(** POST /api/signup (index.js 58-106) *)
Definition signup (salt : string) (now : Z) (email password : string)
    (t : users_table) : account_response * users_table :=
  if negb (signup_valid email password) then (ValidationErrors, t)
  else
    match users_by_email email t with
    | _ :: _ => (EmailTaken, t)
    | [] =>
        let hashedPassword := bcrypt_hash salt password in
        let newId := u_next_id t in
        (Created newId (jwt_sign (mkPayload newId email) now),
         mkUsers (u_rows t ++ [mkUser newId email hashedPassword now])
                 (newId + 1))
    end.

Definition login_valid (email password : string) : bool :=
  isEmail email && negb (String.eqb password EmptyString).

(** POST /api/login (index.js 109-154) *)
Definition login (now : Z) (email password : string) (t : users_table)
    : account_response :=
  if negb (login_valid email password) then ValidationErrors
  else
    match users_by_email email t with
    | [] => InvalidCredentials
    | u :: _ =>
        if bcrypt_compare password (u_password u)
        then LoggedIn (u_id u) (jwt_sign (mkPayload (u_id u) email) now)
        else InvalidCredentials
    end.
End Accounts.

(** GET /api/user/profile behind authenticateToken (index.js 157-170):
    [None] inside [Handled] is the 404 answer. *)
Definition profile (jwt_verify : string -> option jwt_payload)
    (authHeader : option string) (t : users_table)
    : routed (option (Z * string * Z)) :=
  match authenticateToken jwt_verify authHeader with
  | TokenRequired => Rejected401
  | InvalidToken => Rejected403
  | Next user =>
      Handled
        match filter (fun u => u_id u =? userId user) (u_rows t) with
        | [] => None
        | u :: _ => Some (u_id u, u_email u, u_created_at u)
        end
  end.

(** ** Vocabulary of the statements *)

(** The table constraints of core/db.js: PRIMARY KEY (id) and
    UNIQUE (row_number, seat_number). *)
Definition wf_layout (db : ledger) : Prop :=
  NoDup (map id db)
  /\ NoDup (map (fun s => (row_number s, seat_number s)) db).

(** The table constraints, checked. *)
Fixpoint nodupb {A : Type} (eqb : A -> A -> bool) (l : list A) : bool :=
  match l with
  | [] => true
  | x :: l' => negb (existsb (eqb x) l') && nodupb eqb l'
  end.

Definition wf_layoutb (db : ledger) : bool :=
  nodupb Z.eqb (map id db)
  && nodupb pair_eqb (map (fun s => (row_number s, seat_number s)) db).

(** Row [r] has an unoccupied seat at position [p]. *)
Definition free_at (db : ledger) (r p : Z) : bool :=
  existsb (fun s => (row_number s =? r) && (seat_number s =? p)
                    && negb (is_booked s)) db.

(** The positions a, a+1, ..., a+len-1. *)
Definition positions (a : Z) (len : nat) : list Z :=
  map (fun k => a + Z.of_nat k) (seq 0 len).

(** Positions a .. a+len-1 of row [r] are all unoccupied seats. *)
Definition free_run (db : ledger) (r a : Z) (len : nat) : bool :=
  forallb (free_at db r) (positions a len).

(** A run that cannot be extended on either side. *)
Definition maximal_run (db : ledger) (r a : Z) (len : nat) : bool :=
  free_run db r a len
  && negb (free_at db r (a - 1))
  && negb (free_at db r (a + Z.of_nat len)).

(** [seats] are unoccupied seats of row [r] of the ledger, at positions
    a, a+1, ... in this order. *)
Definition seats_of_run (db : ledger) (r a : Z) (seats : list seat) : Prop :=
  Forall (fun s => In s db /\ is_booked s = false /\ row_number s = r) seats
  /\ map seat_number seats = positions a (length seats).

(** The unoccupied seats of row [r], and their number. *)
Definition free_seats_of_row (db : ledger) (r : Z) : list seat :=
  filter (fun s => row_number s =? r) (unbooked db).

Definition free_in_row (db : ledger) (r : Z) : Z :=
  COUNT (free_seats_of_row db r).

(** Row [r] has the most unoccupied seats, and is the lowest such row:
    against every row number, and against the rows of the layout. *)
Definition tops_every_row (db : ledger) (r : Z) : Prop :=
  forall r', free_in_row db r' < free_in_row db r
             \/ (free_in_row db r' = free_in_row db r /\ r <= r').

Definition best_row (db : ledger) (r : Z) : bool :=
  forallb (fun s' =>
             (free_in_row db (row_number s') <? free_in_row db r)
             || ((free_in_row db (row_number s') =? free_in_row db r)
                 && (r <=? row_number s')))
          db.

(** Seat [s] comes before seat [t] by position. *)
Definition position_lt (s t : seat) : Prop := seat_number s < seat_number t.

(** Seat [s] comes before seat [t] by row, then by position. *)
Definition row_position_lt (s t : seat) : Prop :=
  row_number s < row_number t
  \/ (row_number s = row_number t /\ seat_number s < seat_number t).

(** Seat [s] comes before seat [t] by absolute row distance from row [r],
    then by row, then by position. *)
Definition nearer (r : Z) (s t : seat) : Prop :=
  Z.abs (row_number s - r) < Z.abs (row_number t - r)
  \/ (Z.abs (row_number s - r) = Z.abs (row_number t - r)
      /\ row_position_lt s t).

(** Per-seat consistency of the occupancy columns. *)
Definition consistent (s : seat) : bool :=
  if is_booked s
  then match booked_by s, booked_at s with
       | Some _, Some _ => true
       | _, _ => false
       end
  else match booked_by s, booked_at s with
       | None, None => true
       | _, _ => false
       end.

(** The requests that write to the ledger. *)
Inductive operation : Type :=
| OpBookSeats (numSeats userId now : Z) (racing : list update)
| OpCancel (seatId userId : Z)
| OpResetAll.

Definition handler (op : operation) : Tx response :=
  match op with
  | OpBookSeats numSeats userId now racing =>
      bookSeats numSeats userId now racing
  | OpCancel seatId userId => cancel seatId userId
  | OpResetAll => resetAll
  end.

(** Number of unoccupied seats of row [r] at a position below [p]. *)
Definition free_below (db : ledger) (r p : Z) : Z :=
  COUNT (filter (fun t => (row_number t =? r) && (seat_number t <? p))
                (unbooked db)).

(** The grp column of row_seats for seat [s]. *)
Definition grp_of (db : ledger) (s : seat) : Z :=
  seat_number s - ROW_NUMBER (unbooked db) s.

(** The seats that GROUP BY row_number, grp puts under the key (r, g). *)
Definition members (db : ledger) (r g : Z) : list seat :=
  filter (fun s => (row_number s =? r) && (grp_of db s =? g)) (unbooked db).

(** The identifier, row and position of every seat, in table order. *)
Definition layout_of (db : ledger) : list (Z * Z * Z) :=
  map (fun s => (id s, row_number s, seat_number s)) db.

(** One cancel request after the other, by the same user. *)
Fixpoint cancel_each (userId : Z) (seatIds : list Z) (db : ledger)
    : list response * ledger :=
  match seatIds with
  | [] => ([], db)
  | seatId :: rest =>
      let (answer, db1) := run (cancel seatId userId) db in
      let (answers, db2) := cancel_each userId rest db1 in
      (answer :: answers, db2)
  end.

(** The email of the user who holds seat [s], when the users table has
    one. *)
Definition holder_email (users : list user) (s : seat) : option string :=
  match filter (fun u => same_user (booked_by s) (u_id u)) users with
  | [] => None
  | u :: _ => Some (u_email u)
  end.

(** How GET /api/seats shows seat [s]. *)
Definition entry_for (users : list user) (s : seat) : seat_entry :=
  mkEntry (id s) (seat_number s) (is_booked s)
    (if is_booked s then Some (booked_by s, holder_email users s) else None)
    (booked_at s).

(** Two users and their table. *)
Definition two_users : list user :=
  [ mkUser 7 "ann@example.org" "hash-a" 10;
    mkUser 8 "bob@example.org" "hash-b" 11 ].

(** The id column is INTEGER (SERIAL in core/db.js). *)
Definition integer_ids (db : ledger) : Prop :=
  Forall (fun s => int4 (id s) = true) db.

(** A word: a string without a space. *)
Fixpoint no_space (s : string) : bool :=
  match s with
  | EmptyString => true
  | String c s' => negb (Ascii.eqb c " "%char) && no_space s'
  end.

(** The constraints of the users table in core/db.js: PRIMARY KEY (id),
    UNIQUE (email), and an id sequence ahead of every id handed out. *)
Definition wf_users (t : users_table) : Prop :=
  NoDup (map u_id (u_rows t))
  /\ NoDup (map u_email (u_rows t))
  /\ Forall (fun u => u_id u < u_next_id t) (u_rows t).

(** ** Small ledgers *)

(** Two rows of three seats, every seat free; identifiers in the order in
    which core/db.js inserts seats (row by row). *)
Definition layout_2x3 : ledger :=
  [ mkSeat 1 1 1 false None None; mkSeat 2 1 2 false None None;
    mkSeat 3 1 3 false None None; mkSeat 4 2 1 false None None;
    mkSeat 5 2 2 false None None; mkSeat 6 2 3 false None None ].

(** Rows 1 and 2 both have two seats side by side; row 3 has none. *)
Definition layout_two_rows : ledger :=
  [ mkSeat 21 2 1 false None None; mkSeat 22 2 2 false None None;
    mkSeat 11 1 1 true (Some 7) (Some 50); mkSeat 12 1 2 false None None;
    mkSeat 13 1 3 false None None; mkSeat 31 3 1 false None None ].

(** Row 2 has the most unoccupied seats, two of them apart; rows 1 and 3
    are as near to it as each other and have one unoccupied seat each. *)
Definition layout_spill : ledger :=
  [ mkSeat 11 1 1 true (Some 7) (Some 50); mkSeat 12 1 2 false None None;
    mkSeat 21 2 1 false None None; mkSeat 22 2 2 true (Some 8) (Some 51);
    mkSeat 23 2 3 false None None; mkSeat 31 3 1 false None None;
    mkSeat 32 3 2 true (Some 8) (Some 51) ].

(** Row 1 with seat 4 occupied: two runs of three, the higher one first in
    scan order. *)
Definition layout_two_runs : ledger :=
  [ mkSeat 5 1 5 false None None; mkSeat 6 1 6 false None None;
    mkSeat 7 1 7 false None None; mkSeat 1 1 1 false None None;
    mkSeat 2 1 2 false None None; mkSeat 3 1 3 false None None;
    mkSeat 4 1 4 true (Some 7) (Some 50) ].

(** One row whose unoccupied seats are never side by side. *)
Definition layout_gaps : ledger :=
  [ mkSeat 1 1 1 false None None; mkSeat 2 1 2 true (Some 7) (Some 50);
    mkSeat 3 1 3 false None None; mkSeat 4 1 4 true (Some 7) (Some 50);
    mkSeat 5 1 5 false None None ].

(** Every seat occupied. *)
Definition layout_full : ledger :=
  [ mkSeat 1 1 1 true (Some 7) (Some 50); mkSeat 2 1 2 true (Some 7) (Some 50);
    mkSeat 3 2 1 true (Some 8) (Some 51) ].

(** ** Stand-ins for the libraries on small inputs

    A validator that asks for an at sign, a hash that keeps the password
    behind its salt, and tokens that spell out the user id. *)

Definition sample_isEmail (s : string) : bool := has_char_in 64 64 s.

Definition sample_isLength_min8 (s : string) : bool :=
  (8 <=? String.length s)%nat.

Definition sample_hash (salt password : string) : string :=
  (salt ++ "$" ++ password)%string.

Definition sample_compare (password hashed : string) : bool :=
  match split_space hashed with
  | [h] =>
      String.eqb (substring (String.length h - String.length password)
                            (String.length password) h)
                 password
  | _ => false
  end.

Definition sample_sign (p : jwt_payload) (now : Z) : string :=
  if userId p =? 8 then "token-of-8"%string else "token-of-another"%string.

Definition sample_verify (token : string) : option jwt_payload :=
  if String.eqb token "token-of-8"
  then Some (mkPayload 8 "bob@example.org")
  else None.

(** One account, created with [sample_hash "salt"]. *)
Definition sample_users : users_table :=
  mkUsers [ mkUser 7 "ann@example.org" "salt$Secret123" 10 ] 8.

(** * Properties *)

(** ** The queries on small ledgers *)

Example groups_of_2x3 :
  consecutive_groups 3 layout_2x3
  = [ mkGroup 1 0 [1; 2; 3] 3; mkGroup 2 0 [4; 5; 6] 3 ].
Proof. reflexivity. Qed.

Example ties_follow_the_scan :
  consecutiveSeatsQuery 3 layout_two_runs = [ mkGroup 1 1 [5; 6; 7] 3 ].
Proof. reflexivity. Qed.

Example select_side_by_side : selectSeats 2 layout_two_rows = Some [12; 13].
Proof. reflexivity. Qed.

Example select_with_spillover : selectSeats 3 layout_spill = Some [21; 23; 12].
Proof. reflexivity. Qed.

Example select_from_best_row_only : selectSeats 2 layout_gaps = Some [1; 3].
Proof. reflexivity. Qed.

Example select_too_many : selectSeats 5 layout_spill = None.
Proof. reflexivity. Qed.

Example select_on_full_ledger : selectSeats 1 layout_full = None.
Proof. reflexivity. Qed.

Example book_against_a_racing_commit :
  fst (run (bookSeats 2 7 61 [updateQuery 9 60 [2]]) layout_2x3)
  = ConcurrentConflict.
Proof. reflexivity. Qed.

Example cancel_by_another_user :
  run (cancel 22 7) layout_spill = (Forbidden, layout_spill).
Proof. reflexivity. Qed.

Example cancel_by_the_holder :
  fst (run (cancel 22 8) layout_spill) = Released 22
  /\ free_at (snd (run (cancel 22 8) layout_spill)) 2 2 = true.
Proof. split; reflexivity. Qed.

(** ** Sorting *)

Section OrderBy.
Context {A : Type} (leb : A -> A -> bool).

Lemma insert_by_perm (x : A) (l : list A) :
  Permutation (insert_by leb x l) (x :: l).
Proof.
  induction l as [|y l IH]; simpl; [reflexivity|].
  destruct (leb x y); [reflexivity|].
  rewrite IH. apply perm_swap.
Qed.

Lemma ORDER_BY_perm (l : list A) : Permutation (ORDER_BY leb l) l.
Proof.
  induction l as [|x l IH]; simpl; [constructor|].
  unfold ORDER_BY in *. simpl. rewrite insert_by_perm. now constructor.
Qed.

Lemma ORDER_BY_In (l : list A) (x : A) : In x (ORDER_BY leb l) <-> In x l.
Proof.
  split; apply Permutation_in;
    [apply ORDER_BY_perm | symmetry; apply ORDER_BY_perm].
Qed.

Lemma ORDER_BY_length (l : list A) : length (ORDER_BY leb l) = length l.
Proof. apply Permutation_length, ORDER_BY_perm. Qed.

Hypothesis leb_total : forall x y, leb x y = true \/ leb y x = true.
Hypothesis leb_trans :
  forall x y z, leb x y = true -> leb y z = true -> leb x z = true.

Lemma insert_by_sorted (x : A) (l : list A) :
  StronglySorted (fun a b => leb a b = true) l ->
  StronglySorted (fun a b => leb a b = true) (insert_by leb x l).
Proof.
  induction 1 as [|y l Hs IH Hy]; simpl.
  - repeat constructor.
  - destruct (leb x y) eqn:E.
    + constructor; [now constructor|].
      constructor; [exact E|].
      rewrite Forall_forall in *. intros z Hz. eauto.
    + constructor; [exact IH|].
      rewrite Forall_forall in *. intros z Hz.
      apply (Permutation_in _ (insert_by_perm x l)) in Hz.
      destruct Hz as [<-|Hz]; [|auto].
      destruct (leb_total x y); congruence.
Qed.

Lemma ORDER_BY_sorted (l : list A) :
  StronglySorted (fun a b => leb a b = true) (ORDER_BY leb l).
Proof.
  induction l as [|x l IH]; [constructor|].
  apply insert_by_sorted, IH.
Qed.
(** The first row of the answer comes before every row of the answer. *)
Lemma ORDER_BY_head_least (l : list A) (x y : A) (rest : list A) :
  ORDER_BY leb l = x :: rest -> In y (x :: rest) -> leb x y = true.
Proof.
  intros E [<-|Hy].
  - destruct (leb_total x x); assumption.
  - pose proof (ORDER_BY_sorted l) as Hs. rewrite E in Hs.
    inversion Hs as [|? ? _ Hx]; subst.
    rewrite Forall_forall in Hx. auto.
Qed.

End OrderBy.

(** ** The orders of the ORDER BY clauses *)

Ltac order_law :=
  unfold by_seat_number, by_cg_row_number, by_available_desc_row,
    by_nearby, nearby_key, lex3_leb, by_row_seat;
  lia.

Lemma by_seat_number_total (s t : seat) :
  by_seat_number s t = true \/ by_seat_number t s = true.
Proof. order_law. Qed.

Lemma by_seat_number_trans (s t u : seat) :
  by_seat_number s t = true -> by_seat_number t u = true ->
  by_seat_number s u = true.
Proof. order_law. Qed.

Lemma by_cg_row_number_total (g h : consecutive_group) :
  by_cg_row_number g h = true \/ by_cg_row_number h g = true.
Proof. order_law. Qed.

Lemma by_cg_row_number_trans (g h k : consecutive_group) :
  by_cg_row_number g h = true -> by_cg_row_number h k = true ->
  by_cg_row_number g k = true.
Proof. order_law. Qed.

Lemma by_available_desc_row_total (g h : row_group) :
  by_available_desc_row g h = true \/ by_available_desc_row h g = true.
Proof. order_law. Qed.

Lemma by_available_desc_row_trans (g h k : row_group) :
  by_available_desc_row g h = true -> by_available_desc_row h k = true ->
  by_available_desc_row g k = true.
Proof. order_law. Qed.

Lemma by_nearby_total (r : Z) (s t : seat) :
  by_nearby r s t = true \/ by_nearby r t s = true.
Proof. order_law. Qed.

Lemma by_nearby_trans (r : Z) (s t u : seat) :
  by_nearby r s t = true -> by_nearby r t u = true -> by_nearby r s u = true.
Proof. order_law. Qed.

Lemma by_row_seat_total (s t : seat) :
  by_row_seat s t = true \/ by_row_seat t s = true.
Proof. order_law. Qed.

Lemma by_row_seat_trans (s t u : seat) :
  by_row_seat s t = true -> by_row_seat t u = true -> by_row_seat s u = true.
Proof. order_law. Qed.

Create HintDb orders.

#[local] Hint Resolve
  by_seat_number_total by_seat_number_trans
  by_cg_row_number_total by_cg_row_number_trans
  by_available_desc_row_total by_available_desc_row_trans
  by_nearby_total by_nearby_trans
  by_row_seat_total by_row_seat_trans : orders.

(** The answer of an ORDER BY on one of these orders is sorted. *)
Ltac sorted_by_order := apply ORDER_BY_sorted; eauto with orders.

(** ** Lists *)

Lemma filter_perm_length {A : Type} (f : A -> bool) (l l' : list A) :
  Permutation l l' -> length (filter f l) = length (filter f l').
Proof.
  induction 1 as [|x l l' _ IH|x y l|l l' l'' _ IH1 _ IH2]; simpl.
  - reflexivity.
  - destruct (f x); simpl; congruence.
  - destruct (f x), (f y); reflexivity.
  - congruence.
Qed.

Lemma filter_and {A : Type} (f g : A -> bool) (l : list A) :
  filter f (filter g l) = filter (fun x => g x && f x) l.
Proof.
  induction l as [|a l IH]; simpl; [reflexivity|].
  destruct (g a); simpl; [destruct (f a)|]; congruence.
Qed.

Lemma filter_none {A : Type} (f : A -> bool) (l : list A) :
  (forall x, In x l -> f x = false) -> filter f l = [].
Proof.
  induction l as [|a l IH]; simpl; intros H; [reflexivity|].
  rewrite (H a) by now left. apply IH. intros x Hx. apply H. now right.
Qed.

Lemma NoDup_map_filter {A B : Type} (f : A -> B) (g : A -> bool)
    (l : list A) :
  NoDup (map f l) -> NoDup (map f (filter g l)).
Proof.
  induction l as [|a l IH]; simpl; intros H; [constructor|].
  inversion H as [|? ? Hn Hd]; subst.
  destruct (g a); simpl; [|auto].
  constructor; [|auto].
  intros Hin. apply Hn. rewrite in_map_iff in *.
  destruct Hin as (x & Hx & Hin). exists x. split; [exact Hx|].
  now apply filter_In in Hin.
Qed.

Lemma NoDup_perm_map {A B : Type} (f : A -> B) (l l' : list A) :
  Permutation l l' -> NoDup (map f l) -> NoDup (map f l').
Proof.
  intros Hp. apply Permutation_NoDup, Permutation_map, Hp.
Qed.

Lemma NoDup_ORDER_BY {A : Type} (leb : A -> A -> bool) (l : list A) :
  NoDup l -> NoDup (ORDER_BY leb l).
Proof. apply Permutation_NoDup. symmetry. apply ORDER_BY_perm. Qed.

Lemma firstn_In {A : Type} (n : nat) (l : list A) (x : A) :
  In x (firstn n l) -> In x l.
Proof.
  intros H. rewrite <- (firstn_skipn n l). apply in_or_app. now left.
Qed.

Lemma firstn_NoDup {A : Type} (n : nat) (l : list A) :
  NoDup l -> NoDup (firstn n l).
Proof.
  intros H. rewrite <- (firstn_skipn n l) in H.
  now apply NoDup_app_remove_r in H.
Qed.

Lemma sorted_strengthen {A K : Type} (key : A -> K) (R S : A -> A -> Prop)
    (l : list A) :
  (forall x y, R x y -> key x <> key y -> S x y) ->
  StronglySorted R l -> NoDup (map key l) -> StronglySorted S l.
Proof.
  intros HRS. induction 1 as [|a l Hs IH Ha]; simpl; intros Hnd.
  - constructor.
  - inversion Hnd as [|? ? Hn Hd]; subst. constructor; [auto|].
    rewrite Forall_forall in *. intros x Hx. apply HRS; [auto|].
    intros E. apply Hn. rewrite E. now apply in_map.
Qed.

Lemma StronglySorted_NoDup {A : Type} (R : A -> A -> Prop) (l : list A) :
  (forall x, ~ R x x) -> StronglySorted R l -> NoDup l.
Proof.
  intros Hirr. induction 1 as [|a l Hs IH Ha]; constructor; [|exact IH].
  intros Hin. rewrite Forall_forall in Ha. exact (Hirr a (Ha a Hin)).
Qed.

Lemma StronglySorted_map_lt {A : Type} (f : A -> Z) (l : list A) :
  StronglySorted (fun a b => f a < f b) l -> StronglySorted Z.lt (map f l).
Proof.
  induction 1 as [|a l Hs IH Ha]; simpl; constructor; [exact IH|].
  rewrite Forall_forall in *. intros m Hm.
  apply in_map_iff in Hm. destruct Hm as (x & <- & Hx). auto.
Qed.

Lemma distinct_In {A : Type} (eqb : A -> A -> bool) (l : list A) (x : A) :
  (forall a b, eqb a b = true -> a = b) ->
  In x (distinct eqb l) <-> In x l.
Proof.
  intros Heqb. induction l as [|y l IH]; simpl; [tauto|].
  rewrite filter_In, IH. split.
  - tauto.
  - intros [->|H]; [now left|].
    destruct (eqb x y) eqn:E; [left; symmetry; auto | right; auto].
Qed.

Lemma pair_eqb_eq (k1 k2 : Z * Z) : pair_eqb k1 k2 = true -> k1 = k2.
Proof.
  destruct k1, k2. unfold pair_eqb. simpl.
  rewrite andb_true_iff, !Z.eqb_eq. intros [-> ->]. reflexivity.
Qed.

Lemma nodupb_sound {A : Type} (eqb : A -> A -> bool) (l : list A) :
  (forall x, eqb x x = true) -> nodupb eqb l = true -> NoDup l.
Proof.
  intros Hrefl. induction l as [|x l IH]; simpl; intros H; [constructor|].
  apply andb_true_iff in H. destruct H as [Hx Hl].
  constructor; [|auto].
  intros Hin. apply negb_true_iff in Hx.
  assert (existsb (eqb x) l = true); [|congruence].
  apply existsb_exists. exists x. auto.
Qed.

Lemma ANY_In (ids : list Z) (i : Z) : ANY ids i = true <-> In i ids.
Proof.
  unfold ANY. rewrite existsb_exists. split.
  - intros (x & Hx & E). apply Z.eqb_eq in E. now subst.
  - intros H. exists i. split; [exact H | apply Z.eqb_refl].
Qed.

Lemma LIMIT_1 {A : Type} (l : list A) :
  LIMIT 1 l = match l with [] => [] | x :: _ => [x] end.
Proof. destruct l; reflexivity. Qed.

Lemma LIMIT_length {A : Type} (n : Z) (l : list A) :
  0 <= n -> COUNT (LIMIT n l) = Z.min n (COUNT l).
Proof. intros Hn. unfold COUNT, LIMIT. rewrite length_firstn. lia. Qed.

Lemma slice0_nonneg {A : Type} (n : Z) (l : list A) :
  0 <= n -> slice0 n l = firstn (Z.to_nat n) l.
Proof.
  intros Hn. unfold slice0. destruct (Z.ltb_spec n 0); [lia | reflexivity].
Qed.

Lemma COUNT_map {A B : Type} (f : A -> B) (l : list A) :
  COUNT (map f l) = COUNT l.
Proof. unfold COUNT. now rewrite length_map. Qed.

Lemma COUNT_ORDER_BY {A : Type} (leb : A -> A -> bool) (l : list A) :
  COUNT (ORDER_BY leb l) = COUNT l.
Proof. unfold COUNT. now rewrite ORDER_BY_length. Qed.

(** ** Positions a, a+1, ... *)

Lemma positions_In (a m : Z) (len : nat) :
  In m (positions a len) <-> a <= m < a + Z.of_nat len.
Proof.
  unfold positions. rewrite in_map_iff. split.
  - intros (k & <- & Hk). apply in_seq in Hk. lia.
  - intros H. exists (Z.to_nat (m - a)). split; [lia|].
    apply in_seq. lia.
Qed.

Lemma positions_cons (a : Z) (len : nat) :
  positions a (S len) = a :: positions (a + 1) len.
Proof.
  unfold positions. simpl. rewrite Z.add_0_r. f_equal.
  rewrite <- seq_shift, map_map. apply map_ext. intros k. lia.
Qed.

Lemma positions_snoc (a : Z) (len : nat) :
  positions a (S len) = positions a len ++ [a + Z.of_nat len].
Proof. unfold positions. now rewrite seq_S, map_app. Qed.

Lemma positions_sorted (a : Z) (len : nat) :
  StronglySorted Z.lt (positions a len).
Proof.
  revert a. induction len as [|len IH]; intros a; [constructor|].
  rewrite positions_cons. constructor; [apply IH|].
  apply Forall_forall. intros m Hm. apply positions_In in Hm. lia.
Qed.

Lemma firstn_positions (a : Z) (k len : nat) :
  (k <= len)%nat -> firstn k (positions a len) = positions a k.
Proof.
  revert a len. induction k as [|k IH]; intros a len Hk; [reflexivity|].
  destruct len as [|len]; [lia|].
  rewrite !positions_cons. simpl. f_equal. apply IH. lia.
Qed.

Lemma convex_sorted_positions (l : list Z) :
  StronglySorted Z.lt l ->
  (forall p q m, In p l -> In q l -> p <= m <= q -> In m l) ->
  forall a l', l = a :: l' -> l = positions a (length l).
Proof.
  induction 1 as [|x l Hs IH Hx]; intros Hc a l' E; [discriminate|].
  injection E as -> ->. simpl length. rewrite positions_cons. f_equal.
  destruct l' as [|b l'']; [reflexivity|].
  rewrite Forall_forall in Hx.
  assert (Hab : a < b) by (apply Hx; now left).
  assert (b = a + 1) as ->.
  { destruct (Hc a b (a + 1)) as [H|[H|H]]; simpl; auto; try lia.
    inversion Hs as [|? ? _ Hb]; subst. rewrite Forall_forall in Hb.
    specialize (Hb _ H). lia. }
  apply (fun H => IH H (a + 1) l'' eq_refl). intros p q m Hp Hq Hm.
  destruct (Hc p q m (or_intror Hp) (or_intror Hq) Hm) as [<-|H]; [|exact H].
  exfalso. destruct Hp as [<-|Hp]; [lia|].
  inversion Hs as [|? ? _ Hb]; subst. rewrite Forall_forall in Hb.
  specialize (Hb _ Hp). lia.
Qed.

(** ** Lists of seats *)

Lemma wf_layoutb_sound (db : ledger) : wf_layoutb db = true -> wf_layout db.
Proof.
  unfold wf_layoutb, wf_layout. rewrite andb_true_iff. intros [H1 H2].
  split; eapply nodupb_sound; eauto.
  - apply Z.eqb_refl.
  - intros [a b]. unfold pair_eqb. simpl. now rewrite !Z.eqb_refl.
Qed.

Lemma same_id_same_seat (l : list seat) (s t : seat) :
  NoDup (map id l) -> In s l -> In t l -> id s = id t -> s = t.
Proof.
  induction l as [|a l IH]; simpl; intros Hnd Hs Ht E; [easy|].
  inversion Hnd as [|? ? Hn Hd]; subst.
  destruct Hs as [<-|Hs], Ht as [<-|Ht]; auto.
  - exfalso. apply Hn. rewrite E. now apply in_map.
  - exfalso. apply Hn. rewrite <- E. now apply in_map.
Qed.

Lemma row_partition_seats_NoDup (l : list seat) (r : Z) :
  NoDup (map (fun s => (row_number s, seat_number s)) l) ->
  NoDup (map seat_number (filter (fun t => row_number t =? r) l)).
Proof.
  induction l as [|a l IH]; simpl; intros Hnd; [constructor|].
  inversion Hnd as [|? ? Hn Hd]; subst.
  destruct (row_number a =? r) eqn:E; simpl; [|auto].
  constructor; [|auto].
  intros Hin. apply Hn. rewrite in_map_iff in *.
  destruct Hin as (x & Hx & Hin). apply filter_In in Hin.
  destruct Hin as [Hin Hr]. exists x. split; [|exact Hin].
  apply Z.eqb_eq in E, Hr. congruence.
Qed.

Lemma ORDER_BY_seat_strict (l : list seat) :
  NoDup (map seat_number l) ->
  StronglySorted (fun a b => seat_number a < seat_number b)
                 (ORDER_BY by_seat_number l).
Proof.
  intros Hnd.
  apply (sorted_strengthen seat_number
           (fun a b => by_seat_number a b = true)).
  - unfold by_seat_number. intros x y H1 H2. lia.
  - sorted_by_order.
  - apply (NoDup_perm_map _ l); [symmetry; apply ORDER_BY_perm | exact Hnd].
Qed.

Lemma index_of_sorted (s : seat) (l : list seat) :
  StronglySorted (fun a b => seat_number a < seat_number b) l ->
  NoDup (map id l) -> In s l ->
  Z.of_nat (index_of (id s) l)
  = COUNT (filter (fun t => seat_number t <? seat_number s) l).
Proof.
  induction 1 as [|t l Hs IH Ht]; intros Hnd Hin; [easy|].
  pose proof (same_id_same_seat _ s t Hnd Hin (or_introl eq_refl)) as Hst.
  inversion Hnd as [|? ? Hn Hd]; subst.
  rewrite Forall_forall in Ht. simpl.
  destruct (id t =? id s) eqn:E.
  - apply Z.eqb_eq in E. rewrite <- (Hst (eq_sym E)).
    rewrite Z.ltb_irrefl, filter_none; [reflexivity|].
    intros x Hx. rewrite <- (Hst (eq_sym E)) in Ht.
    specialize (Ht x Hx). lia.
  - destruct Hin as [->|Hin]; [rewrite Z.eqb_refl in E; discriminate|].
    specialize (Ht s Hin). apply Z.ltb_lt in Ht. rewrite Ht.
    unfold COUNT in *. simpl length. rewrite Nat2Z.inj_succ, IH by auto.
    lia.
Qed.

Lemma count_place (l : list seat) (r p : Z) :
  NoDup (map (fun s => (row_number s, seat_number s)) l) ->
  COUNT (filter (fun t => (row_number t =? r) && (seat_number t =? p)) l)
  = if existsb (fun t => (row_number t =? r) && (seat_number t =? p)) l
    then 1 else 0.
Proof.
  induction l as [|a l IH]; simpl; intros Hnd; [reflexivity|].
  inversion Hnd as [|? ? Hn Hd]; subst.
  destruct ((row_number a =? r) && (seat_number a =? p)) eqn:E; simpl.
  - rewrite filter_none; [reflexivity|].
    intros x Hx. apply not_true_is_false. intros Ex. apply Hn.
    apply andb_true_iff in E, Ex.
    replace (row_number a, seat_number a)
      with (row_number x, seat_number x) by (f_equal; lia).
    now apply (in_map (fun s => (row_number s, seat_number s))).
  - now apply IH.
Qed.

Lemma count_below_step (l : list seat) (r p : Z) :
  COUNT (filter (fun t => (row_number t =? r) && (seat_number t <? p + 1)) l)
  = COUNT (filter (fun t => (row_number t =? r) && (seat_number t <? p)) l)
    + COUNT (filter (fun t => (row_number t =? r) && (seat_number t =? p)) l).
Proof.
  unfold COUNT. induction l as [|a l IH]; simpl; [reflexivity|].
  destruct (row_number a =? r); simpl; [|exact IH].
  destruct (Z.ltb_spec (seat_number a) (p + 1)),
    (Z.ltb_spec (seat_number a) p), (Z.eqb_spec (seat_number a) p);
    simpl length; lia.
Qed.

Lemma by_nearby_strict (r : Z) (s t : seat) :
  by_nearby r s t = true ->
  (row_number s, seat_number s) <> (row_number t, seat_number t) ->
  nearer r s t.
Proof.
  unfold by_nearby, nearby_key, lex3_leb, nearer, row_position_lt.
  intros H Hne.
  assert (row_number s <> row_number t \/ seat_number s <> seat_number t).
  { destruct (Z.eq_dec (row_number s) (row_number t)) as [E|]; [|auto].
    right. intros E'. apply Hne. congruence. }
  lia.
Qed.

Lemma by_row_seat_strict (s t : seat) :
  by_row_seat s t = true ->
  (row_number s, seat_number s) <> (row_number t, seat_number t) ->
  row_position_lt s t.
Proof.
  unfold by_row_seat, row_position_lt. intros H Hne.
  assert (row_number s <> row_number t \/ seat_number s <> seat_number t).
  { destruct (Z.eq_dec (row_number s) (row_number t)) as [E|]; [|auto].
    right. intros E'. apply Hne. congruence. }
  lia.
Qed.

Lemma free_at_unbooked (db : ledger) (r p : Z) :
  free_at db r p
  = existsb (fun s => (row_number s =? r) && (seat_number s =? p))
            (unbooked db).
Proof.
  unfold free_at, unbooked.
  induction db as [|a db IH]; simpl; [reflexivity|].
  destruct (is_booked a); simpl; rewrite IH.
  - now rewrite andb_false_r.
  - now rewrite andb_true_r.
Qed.

(** ** The selection on a ledger that meets the table constraints *)

Section Ledger.
Variable db : ledger.
Hypothesis Hwf : wf_layout db.

Lemma unbooked_In (s : seat) :
  In s (unbooked db) <-> In s db /\ is_booked s = false.
Proof.
  unfold unbooked. rewrite filter_In.
  destruct (is_booked s); simpl; intuition congruence.
Qed.

Lemma wf_unbooked_ids : NoDup (map id (unbooked db)).
Proof. apply NoDup_map_filter, Hwf. Qed.

Lemma wf_unbooked_places :
  NoDup (map (fun s => (row_number s, seat_number s)) (unbooked db)).
Proof. apply NoDup_map_filter, Hwf. Qed.

Lemma NoDup_unbooked : NoDup (unbooked db).
Proof. eapply NoDup_map_inv, wf_unbooked_ids. Qed.

(** *** ROW_NUMBER counts the seats ahead in the partition *)

Lemma ROW_NUMBER_count (s : seat) :
  In s (unbooked db) ->
  ROW_NUMBER (unbooked db) s
  = 1 + free_below db (row_number s) (seat_number s).
Proof.
  intros Hin. unfold ROW_NUMBER, free_below. f_equal.
  set (part := filter (fun t => row_number t =? row_number s) (unbooked db)).
  rewrite index_of_sorted.
  - unfold COUNT. f_equal.
    rewrite (filter_perm_length _ _ part) by apply ORDER_BY_perm.
    unfold part. now rewrite filter_and.
  - apply ORDER_BY_seat_strict, row_partition_seats_NoDup,
      wf_unbooked_places.
  - apply (NoDup_perm_map _ part); [symmetry; apply ORDER_BY_perm|].
    apply NoDup_map_filter, wf_unbooked_ids.
  - apply ORDER_BY_In, filter_In. split; [exact Hin | apply Z.eqb_refl].
Qed.

(** *** Runs of unoccupied seats and the grp column *)

Lemma free_at_true (r p : Z) :
  free_at db r p = true
  <-> exists s, In s (unbooked db) /\ row_number s = r /\ seat_number s = p.
Proof.
  rewrite free_at_unbooked, existsb_exists.
  split; intros (s & Hs & H); exists s.
  - apply andb_true_iff in H. split; [exact Hs | lia].
  - destruct H as [<- <-]. split; [exact Hs|]. now rewrite !Z.eqb_refl.
Qed.

Lemma free_run_true (r a : Z) (len : nat) :
  free_run db r a len = true
  <-> forall m, a <= m < a + Z.of_nat len -> free_at db r m = true.
Proof.
  unfold free_run. rewrite forallb_forall.
  split; intros H m Hm; apply H; now apply positions_In.
Qed.

Lemma free_run_prefix (r a : Z) (k len : nat) :
  (k <= len)%nat -> free_run db r a len = true -> free_run db r a k = true.
Proof.
  rewrite !free_run_true. intros Hk H m Hm. apply H. lia.
Qed.

Lemma maximal_run_free (r a : Z) (len : nat) :
  maximal_run db r a len = true -> free_run db r a len = true.
Proof.
  unfold maximal_run. rewrite !andb_true_iff. tauto.
Qed.

Lemma seats_of_run_free (r a : Z) (seats : list seat) :
  seats_of_run db r a seats -> free_run db r a (length seats) = true.
Proof.
  intros [Hall Hpos]. apply free_run_true. intros m Hm.
  apply positions_In in Hm. rewrite <- Hpos in Hm.
  apply in_map_iff in Hm. destruct Hm as (s & <- & Hs).
  rewrite Forall_forall in Hall. destruct (Hall s Hs) as (H1 & H2 & H3).
  apply free_at_true. exists s. split; [now apply unbooked_In | auto].
Qed.

Lemma free_below_step (r p : Z) :
  free_below db r (p + 1)
  = free_below db r p + (if free_at db r p then 1 else 0).
Proof.
  unfold free_below.
  rewrite count_below_step, count_place, free_at_unbooked;
    [reflexivity | now apply wf_unbooked_places].
Qed.

Lemma free_below_run (r p : Z) (len : nat) :
  free_below db r (p + Z.of_nat len) <= free_below db r p + Z.of_nat len
  /\ (free_below db r (p + Z.of_nat len) = free_below db r p + Z.of_nat len
      <-> free_run db r p len = true).
Proof.
  induction len as [|len [IHle IHeq]].
  - rewrite Z.add_0_r. split; [lia|]. split; [reflexivity | lia].
  - replace (p + Z.of_nat (S len)) with (p + Z.of_nat len + 1) by lia.
    rewrite free_below_step.
    unfold free_run in *. rewrite positions_snoc, forallb_app.
    cbn [forallb]. rewrite andb_true_r, andb_true_iff, <- IHeq.
    rewrite Nat2Z.inj_succ.
    destruct (free_at db r (p + Z.of_nat len)); (split; [lia|]);
      split; intros H; try lia; try (split; [lia | reflexivity]).
Qed.

Lemma grp_of_count (s : seat) :
  In s (unbooked db) ->
  grp_of db s
  = seat_number s - 1 - free_below db (row_number s) (seat_number s).
Proof.
  intros Hs. unfold grp_of. rewrite ROW_NUMBER_count by assumption. lia.
Qed.

(** Within a row the grp column never decreases with the position, and two
    seats share it exactly when every position between them is an
    unoccupied seat. *)
Lemma grp_same_iff (s t : seat) (len : nat) :
  In s (unbooked db) -> In t (unbooked db) ->
  row_number t = row_number s ->
  seat_number t = seat_number s + Z.of_nat len ->
  grp_of db s <= grp_of db t
  /\ (grp_of db t = grp_of db s
      <-> free_run db (row_number s) (seat_number s) len = true).
Proof.
  intros Hs Ht Er Ep.
  rewrite !grp_of_count by assumption. rewrite Er, Ep.
  destruct (free_below_run (row_number s) (seat_number s) len)
    as [Hle Heq].
  split; [lia|]. rewrite <- Heq. lia.
Qed.

Lemma members_In (r g : Z) (s : seat) :
  In s (members db r g)
  <-> In s (unbooked db) /\ row_number s = r /\ grp_of db s = g.
Proof.
  unfold members. rewrite filter_In, andb_true_iff, !Z.eqb_eq. tauto.
Qed.

Lemma members_convex (r g : Z) (s t : seat) (m : Z) :
  In s (members db r g) -> In t (members db r g) ->
  seat_number s <= m <= seat_number t ->
  exists u, In u (members db r g) /\ seat_number u = m.
Proof.
  intros Hs Ht Hm.
  apply members_In in Hs, Ht.
  destruct Hs as (Hs & Hrs & Hgs), Ht as (Ht & Hrt & Hgt).
  destruct (grp_same_iff s t (Z.to_nat (seat_number t - seat_number s)) Hs Ht) as [_ Hrun]; [congruence | lia |].
  assert (Hfree : free_at db r m = true).
  { destruct (Z.eq_dec m (seat_number t)) as [->|Hne].
    - apply free_at_true. now exists t.
    - rewrite <- Hrs.
      apply (proj1 (free_run_true (row_number s) (seat_number s)
                      (Z.to_nat (seat_number t - seat_number s))));
        [apply Hrun; congruence | lia]. }
  apply free_at_true in Hfree. destruct Hfree as (u & Hu & Hru & Hpu).
  exists u. split; [|exact Hpu]. apply members_In.
  split; [exact Hu|]. split; [exact Hru|].
  destruct (grp_same_iff s u (Z.to_nat (m - seat_number s)) Hs Hu)
    as [H1 _]; [congruence | lia |].
  destruct (grp_same_iff u t (Z.to_nat (seat_number t - m)) Hu Ht)
    as [H2 _]; [congruence | lia |].
  lia.
Qed.

Lemma members_seats_NoDup (r g : Z) :
  NoDup (map seat_number (members db r g)).
Proof.
  unfold members. rewrite <- filter_and.
  apply NoDup_map_filter, row_partition_seats_NoDup, wf_unbooked_places.
Qed.

(** The seats under one GROUP BY key, in position order, fill a run that
    cannot be extended. *)
Lemma members_maximal_run (r g : Z) (s0 : seat) :
  In s0 (members db r g) ->
  exists a,
    map seat_number (ORDER_BY by_seat_number (members db r g))
    = positions a (length (members db r g))
    /\ maximal_run db r a (length (members db r g)) = true.
Proof.
  intros Hs0.
  set (M := members db r g) in *.
  set (L := ORDER_BY by_seat_number M).
  assert (HinL : forall m, In m (map seat_number L)
                           <-> exists u, In u M /\ seat_number u = m).
  { intros m. rewrite in_map_iff. split; intros (u & H1 & H2).
    - exists u. split; [now apply ORDER_BY_In in H2 | exact H1].
    - exists u. split; [exact H2 | now apply ORDER_BY_In]. }
  assert (Hlen : length (map seat_number L) = length M)
    by (unfold L; now rewrite length_map, ORDER_BY_length).
  assert (Hpos : exists a, map seat_number L = positions a (length M)).
  { assert (Hne : exists a l', map seat_number L = a :: l').
    { destruct (map seat_number L) as [|a l'] eqn:E; [exfalso | eauto].
      apply (proj2 (HinL (seat_number s0))). now exists s0. }
    destruct Hne as (a & l' & E). exists a. rewrite <- Hlen.
    apply (convex_sorted_positions (map seat_number L)) with (l' := l');
      [| |exact E].
      + apply StronglySorted_map_lt, ORDER_BY_seat_strict,
          members_seats_NoDup.
      + intros p q m Hp Hq Hm. apply HinL in Hp, Hq. apply HinL.
        destruct Hp as (u & Hu & <-), Hq as (v & Hv & <-).
        now apply (members_convex r g u v). }
  destruct Hpos as (a & Hpos). exists a. split; [exact Hpos|].
  assert (Hmem : forall m, a <= m < a + Z.of_nat (length M)
                           <-> exists u, In u M /\ seat_number u = m).
  { intros m. now rewrite <- HinL, Hpos, positions_In. }
  assert (Hpos1 : (0 < length M)%nat).
  { destruct M; [destruct Hs0 | simpl; lia]. }
  unfold maximal_run. rewrite !andb_true_iff, !negb_true_iff.
  split; [split|].
  - apply free_run_true. intros m Hm. apply Hmem in Hm.
    destruct Hm as (u & Hu & <-). apply members_In in Hu.
    apply free_at_true. exists u. tauto.
  - apply not_true_is_false. intros Hf. apply free_at_true in Hf.
    destruct Hf as (u & Hu & Hru & Hpu).
    destruct (proj1 (Hmem a)) as (sa & Hsa & Hpa); [lia|].
    assert (Hsa' := Hsa). apply members_In in Hsa'.
    destruct Hsa' as (Hsa1 & Hsa2 & Hsa3).
    destruct (grp_same_iff u sa 1 Hu Hsa1) as [_ Hiff];
      [congruence | lia |].
    assert (Hin : In u M).
    { apply members_In. split; [exact Hu|]. split; [exact Hru|].
      rewrite <- Hsa3. symmetry. apply Hiff. apply free_run_true.
      intros m Hm. apply free_at_true. exists u.
      split; [exact Hu|]. split; [reflexivity | lia]. }
    assert (a <= a - 1 < a + Z.of_nat (length M)); [|lia].
    apply Hmem. now exists u.
  - apply not_true_is_false. intros Hf. apply free_at_true in Hf.
    destruct Hf as (u & Hu & Hru & Hpu).
    destruct (proj1 (Hmem (a + Z.of_nat (length M) - 1)))
      as (sb & Hsb & Hpb); [lia|].
    assert (Hsb' := Hsb). apply members_In in Hsb'.
    destruct Hsb' as (Hsb1 & Hsb2 & Hsb3).
    destruct (grp_same_iff sb u 1 Hsb1 Hu) as [_ Hiff];
      [congruence | lia |].
    assert (Hin : In u M).
    { apply members_In. split; [exact Hu|]. split; [exact Hru|].
      rewrite <- Hsb3. apply Hiff. apply free_run_true.
      intros m Hm. apply free_at_true. exists sb.
      split; [exact Hsb1|]. split; [reflexivity | lia]. }
    assert (a <= a + Z.of_nat (length M) < a + Z.of_nat (length M)); [|lia].
    apply Hmem. now exists u.
Qed.

(** A run of unoccupied seats lies inside one group, which is therefore at
    least as long. *)
Lemma run_in_group (r a : Z) (len : nat) :
  (0 < len)%nat -> free_run db r a len = true ->
  exists s0, In s0 (unbooked db) /\ row_number s0 = r
             /\ Z.of_nat len <= COUNT (members db r (grp_of db s0)).
Proof.
  intros Hlen Hrun.
  assert (Hfree := proj1 (free_run_true _ _ _) Hrun).
  destruct (proj1 (free_at_true r a)) as (s0 & Hs0 & Hr0 & Hp0);
    [apply Hfree; lia|].
  exists s0. split; [exact Hs0|]. split; [exact Hr0|].
  set (g := grp_of db s0).
  assert (Hin0 : In s0 (members db r g)) by (apply members_In; auto).
  destruct (members_maximal_run r g s0 Hin0) as (a' & Hpos & _).
  assert (Hall : forall m, a <= m < a + Z.of_nat len ->
                           a' <= m < a' + Z.of_nat (length (members db r g))).
  { intros m Hm. apply positions_In. rewrite <- Hpos.
    destruct (proj1 (free_at_true r m)) as (u & Hu & Hru & Hpu);
      [now apply Hfree|].
    apply in_map_iff. exists u. split; [exact Hpu|].
    apply ORDER_BY_In, members_In. split; [exact Hu|]. split; [exact Hru|].
    destruct (grp_same_iff s0 u (Z.to_nat (m - a)) Hs0 Hu)
      as [_ Hiff]; [congruence | lia |].
    apply Hiff. apply free_run_true. intros m' Hm'.
    rewrite Hr0. apply Hfree. lia. }
  pose proof (Hall a). pose proof (Hall (a + Z.of_nat len - 1)).
  unfold COUNT. lia.
Qed.

(** *** The groups of consecutive_groups *)

Lemma row_seats_eq :
  row_seats db = map (fun s => (s, grp_of db s)) (unbooked db).
Proof. reflexivity. Qed.

Lemma group_rows (r g : Z) :
  filter (fun a => pair_eqb (row_number (fst a), snd a) (r, g)) (row_seats db)
  = map (fun s => (s, grp_of db s)) (members db r g).
Proof. rewrite row_seats_eq, filter_map_swap. reflexivity. Qed.

Lemma consecutive_groups_In (numSeats : Z) 
    (G : consecutive_group) :
  In G (consecutive_groups numSeats db)
  <-> exists s0, In s0 (unbooked db)
      /\ G = mkGroup (row_number s0) (grp_of db s0)
               (array_agg_id (members db (row_number s0) (grp_of db s0)))
               (COUNT (members db (row_number s0) (grp_of db s0)))
      /\ numSeats <= COUNT (members db (row_number s0) (grp_of db s0)).
Proof.
  unfold consecutive_groups, GROUP_BY.
  rewrite ORDER_BY_In, filter_In, map_map, in_map_iff.
  assert (Hcnt : forall r g,
    COUNT (filter (fun a => pair_eqb (row_number (fst a), snd a) (r, g))
                  (row_seats db))
    = COUNT (members db r g)).
  { intros r g. rewrite group_rows. unfold COUNT. now rewrite length_map. }
  assert (Hids : forall r g,
    array_agg_id (map fst (filter
       (fun a => pair_eqb (row_number (fst a), snd a) (r, g)) (row_seats db)))
    = array_agg_id (members db r g)).
  { intros r g. rewrite group_rows, map_map. simpl. now rewrite map_id. }
  split.
  - intros [((r, g) & <- & Hk) Hn]. simpl in *.
    apply distinct_In in Hk; [|apply pair_eqb_eq].
    rewrite row_seats_eq, map_map in Hk. simpl in Hk.
    apply in_map_iff in Hk. destruct Hk as (s0 & [= <- <-] & Hs0).
    rewrite Hcnt in *. rewrite Hids.
    exists s0. split; [exact Hs0|]. split; [reflexivity | lia].
  - intros (s0 & Hs0 & -> & Hn). split.
    + exists (row_number s0, grp_of db s0). simpl.
      split; [now rewrite Hcnt, Hids|].
      apply distinct_In; [apply pair_eqb_eq|].
      rewrite row_seats_eq, map_map. simpl.
      apply in_map_iff. now exists s0.
    + simpl. lia.
Qed.

(** No group of the first query is larger than its row. *)
Lemma members_le_row (r g : Z) :
  COUNT (members db r g) <= free_in_row db r.
Proof.
  unfold members, free_in_row, free_seats_of_row, COUNT.
  rewrite <- filter_and.
  pose proof (filter_length_le (fun s => grp_of db s =? g)
                (filter (fun s => row_number s =? r) (unbooked db))).
  lia.
Qed.

(** *** First priority: the answer of consecutiveSeatsQuery *)

(** What the first query answers: nothing when no row has [numSeats]
    unoccupied seats side by side; otherwise a run that cannot be
    extended, at least [numSeats] long, from the lowest row that has
    one. *)
Lemma tier1_spec (numSeats : Z) :
  1 <= numSeats ->
  match consecutiveSeatsQuery numSeats db with
  | [] => forall r a, free_run db r a (Z.to_nat numSeats) = false
  | G :: _ =>
      exists a L,
        cg_seat_ids G = map id L
        /\ numSeats <= Z.of_nat (length L)
        /\ maximal_run db (cg_row_number G) a (length L) = true
        /\ Forall (fun s => In s (unbooked db)
                            /\ row_number s = cg_row_number G) L
        /\ map seat_number L = positions a (length L)
        /\ (forall r' a', free_run db r' a' (Z.to_nat numSeats) = true ->
                          cg_row_number G <= r')
  end.
Proof.
  intros Hn. unfold consecutiveSeatsQuery. rewrite LIMIT_1.
  assert (Hgroup : forall r a,
    free_run db r a (Z.to_nat numSeats) = true ->
    exists G', In G' (consecutive_groups numSeats db)
               /\ cg_row_number G' = r).
  { intros r a Hrun.
    destruct (run_in_group r a (Z.to_nat numSeats) ltac:(lia) Hrun)
      as (s0 & Hs0 & Hr0 & Hc).
    eexists. split.
    - apply consecutive_groups_In. exists s0.
      split; [exact Hs0|]. split; [reflexivity|]. rewrite Hr0. lia.
    - exact Hr0. }
  destruct (consecutive_groups numSeats db) as [|G rest] eqn:E.
  - intros r a. apply not_true_is_false. intros Hrun.
    destruct (Hgroup r a Hrun) as (G' & [] & _).
  - assert (HG : In G (consecutive_groups numSeats db))
      by (rewrite E; now left).
    apply consecutive_groups_In in HG.
    destruct HG as (s0 & Hs0 & -> & Hc). simpl.
    set (r := row_number s0) in *. set (g := grp_of db s0) in *.
    assert (Hin0 : In s0 (members db r g)) by (apply members_In; auto).
    destruct (members_maximal_run r g s0 Hin0) as (a & Hpos & Hmax).
    exists a, (ORDER_BY by_seat_number (members db r g)).
    rewrite ORDER_BY_length.
    split; [reflexivity|]. split; [exact Hc|]. split; [exact Hmax|].
    split; [|split; [exact Hpos|]].
    + apply Forall_forall. intros s Hs.
      apply ORDER_BY_In, members_In in Hs. tauto.
    + intros r' a' Hrun. destruct (Hgroup r' a' Hrun) as (G' & HG' & <-).
      pose proof (ORDER_BY_head_least by_cg_row_number
                    by_cg_row_number_total by_cg_row_number_trans
                    _ _ G' _ E HG') as Hle.
      unfold by_cg_row_number in Hle. simpl in Hle. lia.
Qed.

(** The seats that the first priority hands over. *)
Lemma tier1_seats (numSeats : Z) (G : consecutive_group)
    (rest : list consecutive_group) :
  1 <= numSeats ->
  consecutiveSeatsQuery numSeats db = G :: rest ->
  exists a len seats,
    slice0 numSeats (cg_seat_ids G) = map id seats
    /\ length seats = Z.to_nat numSeats
    /\ seats_of_run db (cg_row_number G) a seats
    /\ maximal_run db (cg_row_number G) a len = true
    /\ numSeats <= Z.of_nat len
    /\ (forall r' a', free_run db r' a' (Z.to_nat numSeats) = true ->
                      cg_row_number G <= r').
Proof.
  intros Hn E. pose proof (tier1_spec numSeats Hn) as H.
  rewrite E in H.
  destruct H as (a & L & Hids & Hlen & Hmax & Hall & Hpos & Hmin).
  exists a, (length L), (firstn (Z.to_nat numSeats) L).
  assert (Hl : length (firstn (Z.to_nat numSeats) L) = Z.to_nat numSeats)
    by (apply firstn_length_le; lia).
  split; [|split; [exact Hl|split; [|auto]]].
  - rewrite slice0_nonneg, Hids by lia. apply firstn_map.
  - split.
    + apply Forall_forall. intros s Hs. apply firstn_In in Hs.
      rewrite Forall_forall in Hall. destruct (Hall s Hs) as [Hu Hr].
      apply unbooked_In in Hu. tauto.
    + rewrite Hl, <- firstn_map, Hpos. apply firstn_positions. lia.
Qed.

Lemma tier1_needs_row (numSeats : Z) (G : consecutive_group)
    (rest : list consecutive_group) :
  consecutiveSeatsQuery numSeats db = G :: rest ->
  numSeats <= free_in_row db (cg_row_number G).
Proof.
  unfold consecutiveSeatsQuery. rewrite LIMIT_1.
  destruct (consecutive_groups numSeats db) as [|G0 rest0] eqn:E;
    [discriminate|].
  intros [= -> <-].
  assert (HG : In G (consecutive_groups numSeats db))
    by (rewrite E; now left).
  apply consecutive_groups_In in HG. destruct HG as (s0 & _ & -> & Hc).
  simpl. pose proof (members_le_row (row_number s0) (grp_of db s0)). lia.
Qed.

(** *** Second priority: the row with the most unoccupied seats *)

Lemma free_seats_of_row_In (r : Z) (s : seat) :
  In s (free_seats_of_row db r) <-> In s (unbooked db) /\ row_number s = r.
Proof. unfold free_seats_of_row. now rewrite filter_In, Z.eqb_eq. Qed.

Lemma free_in_row_pos (r : Z) :
  0 < free_in_row db r <-> exists s, In s (unbooked db) /\ row_number s = r.
Proof.
  unfold free_in_row, COUNT. split.
  - destruct (free_seats_of_row db r) as [|s l] eqn:E; simpl; [lia|].
    intros _. exists s. apply free_seats_of_row_In. rewrite E. now left.
  - intros (s & Hs). apply free_seats_of_row_In in Hs.
    destruct (free_seats_of_row db r); [destruct Hs | simpl; lia].
Qed.

Lemma free_in_row_nonneg (r : Z) : 0 <= free_in_row db r.
Proof. unfold free_in_row, COUNT. lia. Qed.

Lemma free_in_row_le (r : Z) :
  free_in_row db r <= COUNT (unbooked db).
Proof.
  unfold free_in_row, free_seats_of_row, COUNT.
  pose proof (filter_length_le (fun s => row_number s =? r) (unbooked db)).
  lia.
Qed.

Lemma rows_by_available_In (R : row_group) :
  In R (rows_by_available db)
  <-> exists s0, In s0 (unbooked db)
      /\ R = mkRowGroup (row_number s0)
               (array_agg_id (free_seats_of_row db (row_number s0)))
               (free_in_row db (row_number s0)).
Proof.
  unfold rows_by_available, GROUP_BY.
  rewrite ORDER_BY_In, map_map, in_map_iff. simpl. split.
  - intros (r & <- & Hr). apply distinct_In in Hr; [|apply Z.eqb_eq].
    apply in_map_iff in Hr. destruct Hr as (s0 & <- & Hs0).
    exists s0. split; [exact Hs0 | reflexivity].
  - intros (s0 & Hs0 & ->). exists (row_number s0). split; [reflexivity|].
    apply distinct_In; [apply Z.eqb_eq|]. now apply in_map.
Qed.

Lemma no_row_group :
  rowsWithMaxSeatsQuery db = [] -> unbooked db = [].
Proof.
  unfold rowsWithMaxSeatsQuery. rewrite LIMIT_1.
  destruct (rows_by_available db) as [|R rest] eqn:E; [|discriminate].
  intros _. destruct (unbooked db) as [|s l] eqn:Eu; [reflexivity|].
  exfalso. assert (H : In s (unbooked db)) by (rewrite Eu; now left).
  assert (In (mkRowGroup (row_number s)
                (array_agg_id (free_seats_of_row db (row_number s)))
                (free_in_row db (row_number s))) (rows_by_available db)).
  { apply rows_by_available_In. now exists s. }
  rewrite E in *. contradiction.
Qed.

(** The row group that the second query answers. *)
Lemma best_row_group (R : row_group) (rest : list row_group) :
  rowsWithMaxSeatsQuery db = R :: rest ->
  R = mkRowGroup (rg_row_number R)
        (array_agg_id (free_seats_of_row db (rg_row_number R)))
        (free_in_row db (rg_row_number R))
  /\ 0 < free_in_row db (rg_row_number R)
  /\ tops_every_row db (rg_row_number R).
Proof.
  unfold rowsWithMaxSeatsQuery. rewrite LIMIT_1.
  destruct (rows_by_available db) as [|R0 rest0] eqn:E; [discriminate|].
  intros [= -> <-].
  assert (HR : In R (rows_by_available db)) by (rewrite E; now left).
  apply rows_by_available_In in HR. destruct HR as (s0 & Hs0 & HR).
  assert (Hpos : 0 < free_in_row db (row_number s0))
    by (apply free_in_row_pos; now exists s0).
  rewrite HR at 1. rewrite HR. simpl.
  split; [reflexivity|]. split; [exact Hpos|].
  intros r'. destruct (Z.eq_dec (free_in_row db r') 0) as [E0|Hne].
  - left. lia.
  - pose proof (free_in_row_nonneg r').
    destruct (proj1 (free_in_row_pos r')) as (s' & Hs' & <-); [lia|].
    assert (HR' : In (mkRowGroup (row_number s')
                        (array_agg_id (free_seats_of_row db (row_number s')))
                        (free_in_row db (row_number s')))
                     (rows_by_available db))
      by (apply rows_by_available_In; now exists s').
    rewrite E in HR'.
    pose proof (ORDER_BY_head_least by_available_desc_row
                  by_available_desc_row_total by_available_desc_row_trans
                  _ _ _ _ E HR') as Hle.
    rewrite HR in Hle. unfold by_available_desc_row in Hle. simpl in Hle.
    lia.
Qed.

Lemma best_row_max (r r' : Z) :
  best_row db r = true -> 0 < free_in_row db r' ->
  free_in_row db r' < free_in_row db r
  \/ (free_in_row db r' = free_in_row db r /\ r <= r').
Proof.
  unfold best_row. rewrite forallb_forall. intros H Hpos.
  apply free_in_row_pos in Hpos. destruct Hpos as (s & Hs & <-).
  apply unbooked_In in Hs. specialize (H s (proj1 Hs)). lia.
Qed.

Lemma best_row_agrees (r r0 : Z) :
  best_row db r = true -> tops_every_row db r0 -> 0 < free_in_row db r0 ->
  r0 = r.
Proof.
  intros H H0 Hpos. specialize (H0 r).
  pose proof (best_row_max r r0 H Hpos). lia.
Qed.

(** Leaving out the identifiers already selected from the best row leaves
    out that row. *)
Lemma nearby_filter (r : Z) :
  filter (fun s => negb (ANY (array_agg_id (free_seats_of_row db r)) (id s)))
         (unbooked db)
  = filter (fun s => negb (row_number s =? r)) (unbooked db).
Proof.
  apply filter_ext_in. intros s Hs. f_equal.
  apply eq_true_iff_eq. rewrite ANY_In, Z.eqb_eq.
  unfold array_agg_id. rewrite in_map_iff. split.
  - intros (t & E & Ht). apply ORDER_BY_In, free_seats_of_row_In in Ht.
    destruct Ht as [Ht <-].
    now rewrite (same_id_same_seat _ s t wf_unbooked_ids Hs Ht).
  - intros Hr. exists s. split; [reflexivity|].
    now apply ORDER_BY_In, free_seats_of_row_In.
Qed.

Lemma COUNT_other_rows (r : Z) :
  COUNT (filter (fun s => negb (row_number s =? r)) (unbooked db))
  = COUNT (unbooked db) - free_in_row db r.
Proof.
  unfold free_in_row, free_seats_of_row, COUNT.
  pose proof (filter_length (fun s => row_number s =? r) (unbooked db)).
  lia.
Qed.

(** What the second priority hands over, for the row group of row [r]. *)
Lemma bestRowPlusNearby_spec (numSeats r : Z) :
  1 <= numSeats ->
  bestRowPlusNearby numSeats
    (mkRowGroup r (array_agg_id (free_seats_of_row db r)) (free_in_row db r))
    db
  = if numSeats <=? free_in_row db r
    then Some (map id (firstn (Z.to_nat numSeats)
                         (ORDER_BY by_seat_number (free_seats_of_row db r))))
    else if numSeats <=? COUNT (unbooked db)
    then Some (map id (ORDER_BY by_seat_number (free_seats_of_row db r))
               ++ map id (firstn (Z.to_nat (numSeats - free_in_row db r))
                            (ORDER_BY (by_nearby r)
                               (filter (fun s => negb (row_number s =? r))
                                       (unbooked db)))))
    else None.
Proof.
  intros Hn. unfold bestRowPlusNearby. simpl.
  pose proof (free_in_row_nonneg r) as Hk.
  destruct (Z.leb_spec numSeats (free_in_row db r)) as [Hle|Hlt].
  - rewrite Z.min_r by lia. rewrite Z.ltb_irrefl.
    rewrite slice0_nonneg by lia. unfold array_agg_id.
    now rewrite firstn_map.
  - rewrite Z.min_l by lia.
    destruct (Z.ltb_spec (free_in_row db r) numSeats) as [_|]; [|lia].
    assert (Hown : slice0 (free_in_row db r)
                     (array_agg_id (free_seats_of_row db r))
                   = array_agg_id (free_seats_of_row db r)).
    { rewrite slice0_nonneg by lia. apply firstn_all2.
      unfold array_agg_id, free_in_row, COUNT.
      rewrite length_map, ORDER_BY_length. lia. }
    rewrite Hown. unfold nearbySeatsQuery, nearby_order.
    rewrite nearby_filter.
    rewrite COUNT_map, LIMIT_length, COUNT_ORDER_BY, COUNT_other_rows by lia.
    destruct (Z.leb_spec numSeats (COUNT (unbooked db))) as [Hc|Hc].
    + rewrite Z.min_l, Z.eqb_refl by lia. reflexivity.
    + destruct (Z.eqb_spec
                  (Z.min (numSeats - free_in_row db r)
                         (COUNT (unbooked db) - free_in_row db r))
                  (numSeats - free_in_row db r)); [lia | reflexivity].
Qed.

(** *** Third priority *)

(** What the third priority hands over. *)
Lemma scattered_spec (numSeats : Z) :
  0 <= numSeats ->
  scattered numSeats db
  = if numSeats <=? COUNT (unbooked db)
    then Some (map id (firstn (Z.to_nat numSeats) (any_order db)))
    else None.
Proof.
  intros Hn. unfold scattered, anyAvailableSeatsQuery.
  rewrite COUNT_map, LIMIT_length by lia. unfold any_order.
  rewrite COUNT_ORDER_BY.
  destruct (Z.leb_spec numSeats (COUNT (unbooked db))),
    (Z.ltb_spec (Z.min numSeats (COUNT (unbooked db))) numSeats);
    try lia; reflexivity.
Qed.

(** The third priority is reached only with no unoccupied seat left. *)
Lemma scattered_only_when_full :
  match rowsWithMaxSeatsQuery db with
  | [] => True
  | R :: _ => rg_available_seats R <= 0
  end ->
  unbooked db = [].
Proof.
  destruct (rowsWithMaxSeatsQuery db) as [|R rest] eqn:E; intros H.
  - now apply no_row_group.
  - destruct (best_row_group R rest E) as (HR & Hpos & _).
    rewrite HR in H. simpl in H. lia.
Qed.

(** *** The selection as a whole *)

(** The three ways through the selection. *)
Lemma selectSeats_cases (numSeats : Z) :
  1 <= numSeats ->
  (exists G rest,
      consecutiveSeatsQuery numSeats db = G :: rest
      /\ selectSeats numSeats db = Some (slice0 numSeats (cg_seat_ids G)))
  \/ (consecutiveSeatsQuery numSeats db = []
      /\ exists r,
           tops_every_row db r /\ 0 < free_in_row db r
           /\ selectSeats numSeats db
              = bestRowPlusNearby numSeats
                  (mkRowGroup r (array_agg_id (free_seats_of_row db r))
                     (free_in_row db r)) db)
  \/ (consecutiveSeatsQuery numSeats db = []
      /\ unbooked db = []
      /\ selectSeats numSeats db = scattered numSeats db).
Proof.
  intros Hn. unfold selectSeats.
  destruct (consecutiveSeatsQuery numSeats db) as [|G rest] eqn:E1.
  - right. destruct (rowsWithMaxSeatsQuery db) as [|R rest] eqn:E2.
    + right. split; [reflexivity|]. split; [|reflexivity].
      now apply no_row_group.
    + left. split; [reflexivity|].
      destruct (best_row_group R rest E2) as (HR & Hpos & Hbest).
      exists (rg_row_number R). split; [exact Hbest|]. split; [exact Hpos|].
      rewrite <- HR.
      destruct (Z.ltb_spec 0 (rg_available_seats R)) as [_|Hle];
        [reflexivity|].
      rewrite HR in Hle. simpl in Hle. lia.
  - left. exists G, rest. split; reflexivity.
Qed.

(** Whatever the selection hands over is [numSeats] different unoccupied
    seats of the ledger it read. *)
Lemma selectSeats_sound (numSeats : Z) (ids : list Z) :
  1 <= numSeats ->
  selectSeats numSeats db = Some ids ->
  exists seats,
    ids = map id seats
    /\ length seats = Z.to_nat numSeats
    /\ NoDup seats
    /\ Forall (fun s => In s (unbooked db)) seats.
Proof.
  intros Hn Hsel.
  pose proof NoDup_unbooked as Hnd.
  destruct (selectSeats_cases numSeats Hn)
    as [(G & rest & E & H)|[(E & r & _ & Hpos & H)|(E & Hnil & H)]];
    rewrite H in Hsel; clear H.
  - destruct (tier1_seats numSeats G rest Hn E)
      as (a & len & seats & Hids & Hl & [Hall Hp] & _).
    exists seats. split; [congruence|]. split; [exact Hl|]. split.
    + apply (NoDup_map_inv seat_number). rewrite Hp.
      apply (StronglySorted_NoDup Z.lt); [intros x; lia|].
      apply positions_sorted.
    + eapply Forall_impl; [|exact Hall]. simpl. intros s Hs.
      apply unbooked_In. tauto.
  - rewrite bestRowPlusNearby_spec in Hsel by assumption.
    set (own := ORDER_BY by_seat_number (free_seats_of_row db r)) in *.
    set (others := ORDER_BY (by_nearby r)
                     (filter (fun s => negb (row_number s =? r))
                             (unbooked db))) in *.
    assert (Hown : forall s, In s own -> In s (unbooked db)
                                         /\ row_number s = r).
    { intros s Hs. now apply ORDER_BY_In, free_seats_of_row_In in Hs. }
    assert (Hoth : forall s, In s others -> In s (unbooked db)
                                            /\ row_number s <> r).
    { intros s Hs. apply ORDER_BY_In, filter_In in Hs.
      rewrite negb_true_iff, Z.eqb_neq in Hs. exact Hs. }
    assert (Hlown : Z.of_nat (length own) = free_in_row db r).
    { unfold own. now rewrite ORDER_BY_length. }
    assert (Hloth : Z.of_nat (length others)
                    = COUNT (unbooked db) - free_in_row db r).
    { unfold others. rewrite ORDER_BY_length. apply COUNT_other_rows. }
    assert (Hndown : NoDup own).
    { apply NoDup_ORDER_BY, NoDup_filter, Hnd. }
    assert (Hndoth : NoDup others).
    { apply NoDup_ORDER_BY, NoDup_filter, Hnd. }
    destruct (Z.leb_spec numSeats (free_in_row db r)) as [Hle|Hlt].
    + injection Hsel as <-.
      exists (firstn (Z.to_nat numSeats) own).
      split; [reflexivity|]. split; [apply firstn_length_le; lia|].
      split; [now apply firstn_NoDup|].
      apply Forall_forall. intros s Hs. apply firstn_In in Hs.
      now apply Hown.
    + destruct (Z.leb_spec numSeats (COUNT (unbooked db))) as [Hc|Hc];
        [|discriminate].
      injection Hsel as <-.
      exists (own ++ firstn (Z.to_nat (numSeats - free_in_row db r)) others).
      split; [now rewrite map_app|]. split; [|split].
      * rewrite length_app, firstn_length_le; lia.
      * apply NoDup_app; [exact Hndown | now apply firstn_NoDup|].
        intros s Hs Hs'. apply firstn_In in Hs'.
        apply Hown in Hs. apply Hoth in Hs'. tauto.
      * apply Forall_forall. intros s Hs. apply in_app_iff in Hs.
        destruct Hs as [Hs|Hs]; [now apply Hown|].
        apply firstn_In in Hs. now apply Hoth.
  - rewrite scattered_spec in Hsel by lia.
    destruct (Z.leb_spec numSeats (COUNT (unbooked db))) as [Hc|Hc];
      [|discriminate].
    injection Hsel as <-.
    exists (firstn (Z.to_nat numSeats) (any_order db)).
    split; [reflexivity|]. split; [|split].
    + apply firstn_length_le. unfold any_order. rewrite ORDER_BY_length.
      unfold COUNT in Hc. lia.
    + now apply firstn_NoDup, NoDup_ORDER_BY.
    + apply Forall_forall. intros s Hs. apply firstn_In in Hs.
      now apply ORDER_BY_In in Hs.
Qed.

End Ledger.

(** ** The handlers, step by step *)

Ltac step_tx :=
  unfold run, bookSeats, cancel, resetAll, execute_returning, bind, BEGIN,
    query, lockQuery, ROLLBACK, COMMIT, execute, ret, visible;
  simpl.

Lemma run_bookSeats (numSeats userId now : Z) (racing : list update)
    (db : ledger) :
  run (bookSeats numSeats userId now racing) db
  = match selectSeats numSeats db with
    | None => (InsufficientCapacity, db)
    | Some selectedSeatIds =>
        let db1 := apply_updates racing db in
        if verifyAvailabilityQuery selectedSeatIds db1 >? 0
        then (ConcurrentConflict, db1)
        else (Assigned (returning selectedSeatIds db1),
              apply_update (updateQuery userId now selectedSeatIds) db1)
    end.
Proof.
  step_tx.
  destruct (selectSeats numSeats db) as [ids|]; [|reflexivity]. simpl.
  destruct (verifyAvailabilityQuery ids (apply_updates racing db) >? 0);
    reflexivity.
Qed.

Lemma run_cancel_out_of_range (seatId userId : Z) (db : ledger) :
  int4 seatId = false ->
  run (cancel seatId userId) db = (StorageError, db).
Proof. intros H. step_tx. now rewrite H. Qed.

Lemma run_cancel (seatId userId : Z) (db : ledger) :
  int4 seatId = true ->
  run (cancel seatId userId) db
  = match seatQuery seatId db with
    | [] => (NotFound, db)
    | seat :: _ =>
        if negb (same_user (booked_by seat) userId) then (Forbidden, db)
        else (Released seatId, apply_update (freeSeat seatId) db)
    end.
Proof.
  intros H. step_tx. rewrite H. simpl.
  destruct (seatQuery seatId db) as [|seat rest]; [reflexivity|].
  destruct (negb (same_user (booked_by seat) userId)); reflexivity.
Qed.

Lemma run_resetAll (db : ledger) :
  run resetAll db = (Reset, apply_update freeAll db).
Proof. reflexivity. Qed.


Lemma verify_positive (ids : list Z) (db : ledger) :
  (verifyAvailabilityQuery ids db >? 0) = true
  <-> exists s, In s db /\ In (id s) ids /\ is_booked s = true.
Proof.
  unfold verifyAvailabilityQuery, COUNT. rewrite Z.gtb_ltb. split.
  - destruct (filter _ db) as [|s l] eqn:E; simpl; [lia|].
    intros _. assert (H : In s (s :: l)) by now left.
    rewrite <- E in H. apply filter_In in H.
    destruct H as [H1 H2]. apply andb_true_iff in H2.
    exists s. now rewrite <- ANY_In.
  - intros (s & H1 & H2 & H3).
    assert (H : In s (filter (fun s => ANY ids (id s) && is_booked s) db)).
    { apply filter_In. split; [exact H1|].
      apply andb_true_iff. now rewrite ANY_In. }
    destruct (filter _ db); [destruct H|].
    apply Z.ltb_lt. cbn [length]. lia.
Qed.

Lemma seatQuery_unique (db : ledger) (s : seat) :
  NoDup (map id db) -> In s db -> is_booked s = true ->
  seatQuery (id s) db = [s].
Proof.
  unfold seatQuery. induction db as [|a db IH]; simpl; intros Hnd Hin Hb;
    [destruct Hin|].
  inversion Hnd as [|? ? Hn Hd]; subst.
  destruct Hin as [->|Hin].
  - rewrite Z.eqb_refl, Hb. simpl. f_equal.
    apply filter_none. intros x Hx.
    destruct (Z.eqb_spec (id x) (id s)) as [E|]; [|reflexivity].
    exfalso. apply Hn. rewrite <- E. now apply in_map.
  - destruct (Z.eqb_spec (id a) (id s)) as [E|]; [|simpl; auto].
    exfalso. apply Hn. rewrite E. now apply in_map.
Qed.

Lemma seatQuery_none (db : ledger) (seatId : Z) :
  (forall s, In s db -> id s = seatId -> is_booked s = false) ->
  seatQuery seatId db = [].
Proof.
  intros H. apply filter_none. intros s Hs.
  destruct (Z.eqb_spec (id s) seatId) as [E|]; [|reflexivity].
  now rewrite (H s Hs E).
Qed.

Lemma apply_update_consistent (u : update) (db : ledger) :
  Forall (fun s => consistent s = true) db ->
  Forall (fun s => consistent s = true) (apply_update u db).
Proof.
  intros H. destruct u as [userId now ids|seatId|]; simpl;
    apply Forall_map; eapply Forall_impl; try exact H; simpl; intros s Hs.
  - destruct (ANY ids (id s)); [reflexivity | exact Hs].
  - destruct (id s =? seatId); [reflexivity | exact Hs].
  - reflexivity.
Qed.

Lemma apply_updates_consistent (us : list update) (db : ledger) :
  Forall (fun s => consistent s = true) db ->
  Forall (fun s => consistent s = true) (apply_updates us db).
Proof.
  revert db. induction us as [|u us IH]; intros db H; [exact H|].
  apply IH, apply_update_consistent, H.
Qed.

(** The other transactions' updates change no identifier, row or
    position, so RETURNING answers the same rows after them. *)
Lemma returning_apply_update (ids : list Z) (u : update) (db : ledger) :
  returning ids (apply_update u db) = returning ids db.
Proof.
  unfold returning.
  destruct u as [userId now sel|seatId|]; simpl;
    rewrite filter_map_swap, map_map; simpl.
  - erewrite filter_ext; [apply map_ext|]; intros s; simpl;
      destruct (ANY sel (id s)); reflexivity.
  - erewrite filter_ext; [apply map_ext|]; intros s; simpl;
      destruct (id s =? seatId); reflexivity.
  - reflexivity.
Qed.

Lemma returning_apply_updates (ids : list Z) (us : list update)
    (db : ledger) :
  returning ids (apply_updates us db) = returning ids db.
Proof.
  revert db. induction us as [|u us IH]; intros db; [reflexivity|].
  simpl. unfold apply_updates in IH. now rewrite IH, returning_apply_update.
Qed.

(** The rows with an identifier among those of [seats] are [seats]. *)
Lemma rows_of_ids (db : ledger) (seats : list seat) :
  NoDup (map id db) -> NoDup seats -> Forall (fun s => In s db) seats ->
  Permutation (filter (fun s => ANY (map id seats) (id s)) db) seats.
Proof.
  intros Hids Hnd Hall. rewrite Forall_forall in Hall.
  apply NoDup_Permutation; [|exact Hnd|].
  - apply NoDup_filter. eapply NoDup_map_inv, Hids.
  - intros s. rewrite filter_In, ANY_In, in_map_iff. split.
    + intros (Hs & t & E & Ht).
      now rewrite (same_id_same_seat db s t Hids Hs (Hall t Ht)).
    + intros Hs. split; [auto|]. now exists s.
Qed.

(** * The properties of the specification *)



(** C2.  Whenever some row holds a run of unoccupied seats with
    consecutive positions, closed on both sides and at least numSeats
    long, the selection is the first numSeats seats, in position order, of
    one such run: all of one row, at positions a, a+1, ..., a+numSeats-1
    where the run starts at a. *)
Theorem C2_consecutive_run_is_selected (db : ledger) (numSeats : Z) :
  wf_layout db -> 1 <= numSeats ->
  (exists r a len,
      maximal_run db r a len = true /\ numSeats <= Z.of_nat len) ->
  exists r a len seats,
    maximal_run db r a len = true
    /\ numSeats <= Z.of_nat len
    /\ selectSeats numSeats db = Some (map id seats)
    /\ length seats = Z.to_nat numSeats
    /\ seats_of_run db r a seats.
Proof.
  intros Hwf Hn (r0 & a0 & len0 & Hmax0 & Hlen0).
  unfold selectSeats.
  destruct (consecutiveSeatsQuery numSeats db) as [|G rest] eqn:E.
  - exfalso. pose proof (tier1_spec db Hwf numSeats Hn) as H.
    rewrite E in H. specialize (H r0 a0).
    rewrite (free_run_prefix db r0 a0 _ len0) in H;
      [discriminate | lia | now apply maximal_run_free].
  - destruct (tier1_seats db Hwf numSeats G rest Hn E)
      as (a & len & seats & Hids & Hl & Hrun & Hmax & Hlen & _).
    exists (cg_row_number G), a, len, seats. rewrite Hids. auto.
Qed.

Lemma C2_witness :
  exists r a len seats,
    maximal_run layout_2x3 r a len = true
    /\ 2 <= Z.of_nat len
    /\ selectSeats 2 layout_2x3 = Some (map id seats)
    /\ length seats = Z.to_nat 2
    /\ seats_of_run layout_2x3 r a seats.
Proof.
  apply (C2_consecutive_run_is_selected layout_2x3 2).
  - apply wf_layoutb_sound. reflexivity.
  - lia.
  - exists 1, 1, 3%nat. split; [reflexivity | simpl; lia].
Defined.

(** C3.  On the 2 x 3 layout with every seat free, bookSeats(3, u1) is
    assigned exactly (1,1), (1,2), (1,3); then bookSeats(2, u2) is
    assigned exactly (2,1), (2,2); then bookSeats(2, u3) is answered
    InsufficientCapacity and leaves (2,3) unoccupied. *)
Theorem C3_two_by_three_scenario (u1 u2 u3 t1 t2 t3 : Z) :
  let first := run (bookSeats 3 u1 t1 []) layout_2x3 in
  let second := run (bookSeats 2 u2 t2 []) (snd first) in
  let third := run (bookSeats 2 u3 t3 []) (snd second) in
  fst first = Assigned [(1, 1, 1); (2, 1, 2); (3, 1, 3)]
  /\ fst second = Assigned [(4, 2, 1); (5, 2, 2)]
  /\ fst third = InsufficientCapacity
  /\ free_at (snd third) 2 3 = true
  /\ snd third
     = [ mkSeat 1 1 1 true (Some u1) (Some t1);
         mkSeat 2 1 2 true (Some u1) (Some t1);
         mkSeat 3 1 3 true (Some u1) (Some t1);
         mkSeat 4 2 1 true (Some u2) (Some t2);
         mkSeat 5 2 2 true (Some u2) (Some t2);
         mkSeat 6 2 3 false None None ].
Proof. vm_compute. repeat split. Qed.

(** C4.  For a request of at least one seat the selection fails exactly
    when fewer seats are unoccupied than requested; with numSeats or more
    unoccupied seats it always hands over a candidate list. *)
Theorem C4_fails_iff_too_few_seats (db : ledger) (numSeats : Z) :
  wf_layout db -> 1 <= numSeats ->
  (selectSeats numSeats db = None <-> COUNT (unbooked db) < numSeats)
  /\ (numSeats <= COUNT (unbooked db) ->
      exists ids, selectSeats numSeats db = Some ids).
Proof.
  intros Hwf Hn.
  assert (H : if numSeats <=? COUNT (unbooked db)
              then exists ids, selectSeats numSeats db = Some ids
              else selectSeats numSeats db = None).
  { destruct (selectSeats_cases db numSeats Hn)
      as [(G & rest & E & ->)|[(E & r & _ & Hpos & ->)|(E & Hnil & ->)]].
    - pose proof (tier1_needs_row db numSeats G rest E).
      pose proof (free_in_row_le db (cg_row_number G)).
      destruct (Z.leb_spec numSeats (COUNT (unbooked db))); [eauto | lia].
    - rewrite bestRowPlusNearby_spec by assumption.
      pose proof (free_in_row_le db r).
      destruct (Z.leb_spec numSeats (free_in_row db r)),
        (Z.leb_spec numSeats (COUNT (unbooked db))); eauto; lia.
    - rewrite scattered_spec by lia.
      destruct (Z.leb_spec numSeats (COUNT (unbooked db))); eauto. }
  destruct (Z.leb_spec numSeats (COUNT (unbooked db))) as [Hc|Hc].
  - destruct H as (ids & ->). split; [|eauto].
    split; [discriminate | lia].
  - rewrite H. split; [tauto | lia].
Qed.

Lemma C4_witness :
  (selectSeats 3 layout_two_rows = None
   <-> COUNT (unbooked layout_two_rows) < 3)
  /\ (3 <= COUNT (unbooked layout_two_rows) ->
      exists ids, selectSeats 3 layout_two_rows = Some ids).
Proof.
  apply (C4_fails_iff_too_few_seats layout_two_rows 3).
  - apply wf_layoutb_sound. reflexivity.
  - lia.
Defined.

(** C5.  When two distinct rows each hold numSeats unoccupied seats side
    by side, the selection is a run of the lowest-numbered row that holds
    such seats: a row no higher than either of the two, and the lower of
    the two when no other row qualifies. *)
Theorem C5_lowest_row_is_chosen (db : ledger) (numSeats r1 a1 r2 a2 : Z) :
  wf_layout db -> 1 <= numSeats -> r1 <> r2 ->
  free_run db r1 a1 (Z.to_nat numSeats) = true ->
  free_run db r2 a2 (Z.to_nat numSeats) = true ->
  exists r a seats,
    selectSeats numSeats db = Some (map id seats)
    /\ length seats = Z.to_nat numSeats
    /\ seats_of_run db r a seats
    /\ (forall r' a', free_run db r' a' (Z.to_nat numSeats) = true -> r <= r')
    /\ r <= Z.min r1 r2
    /\ ((forall r' a', free_run db r' a' (Z.to_nat numSeats) = true ->
                       r' = r1 \/ r' = r2) ->
        r = Z.min r1 r2).
Proof.
  intros Hwf Hn Hne Hrun1 Hrun2. unfold selectSeats.
  destruct (consecutiveSeatsQuery numSeats db) as [|G rest] eqn:E.
  - exfalso. pose proof (tier1_spec db Hwf numSeats Hn) as H.
    rewrite E in H. rewrite H in Hrun1. discriminate.
  - destruct (tier1_seats db Hwf numSeats G rest Hn E)
      as (a & len & seats & Hids & Hl & Hrun & _ & _ & Hmin).
    exists (cg_row_number G), a, seats. rewrite Hids.
    pose proof (Hmin _ _ Hrun1). pose proof (Hmin _ _ Hrun2).
    repeat split; auto; try apply Hrun; try lia.
    intros Honly. apply seats_of_run_free in Hrun. rewrite Hl in Hrun.
    destruct (Honly _ _ Hrun); lia.
Qed.

Lemma C5_witness :
  exists r a seats,
    selectSeats 2 layout_two_rows = Some (map id seats)
    /\ length seats = Z.to_nat 2
    /\ seats_of_run layout_two_rows r a seats
    /\ (forall r' a',
          free_run layout_two_rows r' a' (Z.to_nat 2) = true -> r <= r')
    /\ r <= Z.min 2 1
    /\ ((forall r' a',
           free_run layout_two_rows r' a' (Z.to_nat 2) = true ->
           r' = 2 \/ r' = 1) ->
        r = Z.min 2 1).
Proof.
  apply (C5_lowest_row_is_chosen layout_two_rows 2 2 1 1 2).
  - apply wf_layoutb_sound. reflexivity.
  - lia.
  - lia.
  - reflexivity.
  - reflexivity.
Defined.

(** C6.  When the row r with the most unoccupied seats (the lowest such
    row) has fewer than numSeats of them, and enough seats are unoccupied
    overall, the selection is every unoccupied seat of row r in position
    order, followed by the first numSeats - k of the unoccupied seats of
    the other rows, ordered by absolute row distance from r, then by row
    number, then by position. *)
Theorem C6_spillover_is_nearest_first (db : ledger) (numSeats r : Z) :
  wf_layout db -> 1 <= numSeats ->
  best_row db r = true ->
  free_in_row db r < numSeats ->
  numSeats <= COUNT (unbooked db) ->
  exists own others,
    selectSeats numSeats db
    = Some (map id own
            ++ map id (firstn (Z.to_nat (numSeats - free_in_row db r)) others))
    /\ (forall s, In s own
                  <-> In s db /\ is_booked s = false /\ row_number s = r)
    /\ StronglySorted position_lt own
    /\ (forall s, In s others
                  <-> In s db /\ is_booked s = false /\ row_number s <> r)
    /\ StronglySorted (nearer r) others.
Proof.
  intros Hwf Hn Hbest Hk Hc.
  exists (ORDER_BY by_seat_number (free_seats_of_row db r)),
         (ORDER_BY (by_nearby r)
            (filter (fun s => negb (row_number s =? r)) (unbooked db))).
  split; [|split; [|split; [|split]]].
  - destruct (selectSeats_cases db numSeats Hn)
      as [(G & rest & E & _)|[(E & r0 & Htop & Hpos & ->)|(_ & Hnil & _)]].
    + exfalso. pose proof (tier1_needs_row db numSeats G rest E) as HG.
      pose proof (best_row_max db r (cg_row_number G) Hbest). lia.
    + rewrite (best_row_agrees db r r0 Hbest Htop Hpos).
      rewrite bestRowPlusNearby_spec by assumption.
      destruct (Z.leb_spec numSeats (free_in_row db r)); [lia|].
      destruct (Z.leb_spec numSeats (COUNT (unbooked db))); [reflexivity|lia].
    + exfalso. rewrite Hnil in Hc. unfold COUNT in Hc. simpl in Hc. lia.
  - intros s. rewrite ORDER_BY_In, free_seats_of_row_In, unbooked_In. tauto.
  - apply ORDER_BY_seat_strict, row_partition_seats_NoDup,
      (wf_unbooked_places db Hwf).
  - intros s. rewrite ORDER_BY_In, filter_In, unbooked_In, negb_true_iff,
      Z.eqb_neq. tauto.
  - apply (sorted_strengthen (fun s => (row_number s, seat_number s))
             (fun a b => by_nearby r a b = true)).
    + apply by_nearby_strict.
    + sorted_by_order.
    + eapply NoDup_perm_map; [symmetry; apply ORDER_BY_perm|].
      apply NoDup_map_filter, (wf_unbooked_places db Hwf).
Qed.

Lemma C6_witness :
  exists own others,
    selectSeats 3 layout_spill
    = Some (map id own
            ++ map id (firstn (Z.to_nat (3 - free_in_row layout_spill 2))
                              others))
    /\ (forall s, In s own
                  <-> In s layout_spill /\ is_booked s = false
                      /\ row_number s = 2)
    /\ StronglySorted position_lt own
    /\ (forall s, In s others
                  <-> In s layout_spill /\ is_booked s = false
                      /\ row_number s <> 2)
    /\ StronglySorted (nearer 2) others.
Proof.
  apply (C6_spillover_is_nearest_first layout_spill 3 2).
  - apply wf_layoutb_sound. reflexivity.
  - lia.
  - reflexivity.
  - vm_compute. reflexivity.
  - vm_compute. discriminate.
Defined.

(** C7.  The third priority (index.js 322-341) takes the first numSeats
    unoccupied seats of the whole ledger in (row, position) order and
    succeeds exactly when numSeats of them exist; the selection is this
    third priority when the first query answers no run and the second
    answers no row with an unoccupied seat, which the second query does
    only when no seat is unoccupied at all. *)
Theorem C7_scattered_fallback (db : ledger) (numSeats : Z) :
  wf_layout db -> 1 <= numSeats ->
  exists free,
    (forall s, In s free <-> In s db /\ is_booked s = false)
    /\ StronglySorted row_position_lt free
    /\ scattered numSeats db
       = (if numSeats <=? COUNT free
          then Some (map id (firstn (Z.to_nat numSeats) free))
          else None)
    /\ (consecutiveSeatsQuery numSeats db = [] ->
        match rowsWithMaxSeatsQuery db with
        | [] => True
        | R :: _ => rg_available_seats R <= 0
        end ->
        selectSeats numSeats db = scattered numSeats db /\ free = []).
Proof.
  intros Hwf Hn. exists (any_order db).
  split; [|split; [|split]].
  - intros s. unfold any_order. now rewrite ORDER_BY_In, unbooked_In.
  - apply (sorted_strengthen (fun s => (row_number s, seat_number s))
             (fun a b => by_row_seat a b = true)).
    + apply by_row_seat_strict.
    + sorted_by_order.
    + eapply NoDup_perm_map; [symmetry; apply ORDER_BY_perm|].
      apply (wf_unbooked_places db Hwf).
  - unfold any_order at 1. rewrite COUNT_ORDER_BY.
    apply scattered_spec. lia.
  - intros H1 H2. split.
    + unfold selectSeats. rewrite H1.
      destruct (rowsWithMaxSeatsQuery db) as [|R rest]; [reflexivity|].
      destruct (Z.ltb_spec 0 (rg_available_seats R)); [lia | reflexivity].
    + unfold any_order. now rewrite (scattered_only_when_full db H2).
Qed.

Lemma C7_witness :
  exists free,
    (forall s, In s free <-> In s layout_gaps /\ is_booked s = false)
    /\ StronglySorted row_position_lt free
    /\ scattered 2 layout_gaps
       = (if 2 <=? COUNT free
          then Some (map id (firstn (Z.to_nat 2) free))
          else None)
    /\ (consecutiveSeatsQuery 2 layout_gaps = [] ->
        match rowsWithMaxSeatsQuery layout_gaps with
        | [] => True
        | R :: _ => rg_available_seats R <= 0
        end ->
        selectSeats 2 layout_gaps = scattered 2 layout_gaps /\ free = []).
Proof.
  apply (C7_scattered_fallback layout_gaps 2).
  - apply wf_layoutb_sound. reflexivity.
  - lia.
Defined.

(** C8, as stated, at a seatId beyond the INTEGER range of the id column:
    no such seat exists, and the answer is not NotFound. *)
Lemma C8_counterexample :
  ~ ((forall s, In s layout_spill -> id s = 2147483648 ->
                is_booked s = false) ->
     run (cancel 2147483648 8) layout_spill = (NotFound, layout_spill)).
Proof.
  intros H.
  assert (E : run (cancel 2147483648 8) layout_spill
              = (NotFound, layout_spill)).
  { apply H. intros s Hs Hid. cbn in Hs.
    repeat (destruct Hs as [<-|Hs]; [discriminate Hid|]). contradiction. }
  discriminate E.
Qed.

(** C8.  On a table whose identifiers are INTEGER values: a cancel by
    anyone but the holder of an occupied seat is Forbidden and writes
    nothing.  A cancel of a seat that does not exist or is not occupied is
    NotFound and writes nothing when seatId is an INTEGER value; beyond
    that range the query throws and the answer is StorageError, with
    nothing written.  A cancel by the holder is Released: occupied,
    occupiedBy and occupiedAt of that seat are cleared, and that seat is
    the only one of its identifier. *)
Theorem C8_cancel_outcomes (db : ledger) (seatId userId : Z) :
  wf_layout db -> integer_ids db ->
  (forall s a,
      In s db -> id s = seatId -> is_booked s = true ->
      booked_by s = Some a -> a <> userId ->
      run (cancel seatId userId) db = (Forbidden, db))
  /\ ((forall s, In s db -> id s = seatId -> is_booked s = false) ->
      run (cancel seatId userId) db
      = (if int4 seatId then NotFound else StorageError, db))
  /\ (forall s,
        In s db -> id s = seatId -> is_booked s = true ->
        booked_by s = Some userId ->
        run (cancel seatId userId) db
        = (Released seatId,
           map (fun t =>
                  if id t =? seatId
                  then mkSeat (id t) (row_number t) (seat_number t)
                         false None None
                  else t) db)
        /\ (forall t, In t db -> id t = seatId -> t = s)).
Proof.
  intros [Hids _] Hint. unfold integer_ids in Hint.
  rewrite Forall_forall in Hint. split; [|split].
  - intros s a Hs <- Hb Hby Hne.
    rewrite run_cancel, seatQuery_unique, Hby by auto. simpl.
    destruct (Z.eqb_spec a userId); [contradiction | reflexivity].
  - intros H. destruct (int4 seatId) eqn:E.
    + now rewrite run_cancel, seatQuery_none.
    + now apply run_cancel_out_of_range.
  - intros s Hs <- Hb Hby. split.
    + rewrite run_cancel, seatQuery_unique, Hby by auto. simpl.
      now rewrite Z.eqb_refl.
    + intros t Ht E. now apply (same_id_same_seat db).
Qed.

Lemma C8_witness :
  (forall s a,
      In s layout_spill -> id s = 22 -> is_booked s = true ->
      booked_by s = Some a -> a <> 7 ->
      run (cancel 22 7) layout_spill = (Forbidden, layout_spill))
  /\ ((forall s, In s layout_spill -> id s = 22 -> is_booked s = false) ->
      run (cancel 22 7) layout_spill
      = (if int4 22 then NotFound else StorageError, layout_spill))
  /\ (forall s,
        In s layout_spill -> id s = 22 -> is_booked s = true ->
        booked_by s = Some 7 ->
        run (cancel 22 7) layout_spill
        = (Released 22,
           map (fun t =>
                  if id t =? 22
                  then mkSeat (id t) (row_number t) (seat_number t)
                         false None None
                  else t) layout_spill)
        /\ (forall t, In t layout_spill -> id t = 22 -> t = s)).
Proof.
  apply (C8_cancel_outcomes layout_spill 22 7).
  - apply wf_layoutb_sound. reflexivity.
  - repeat constructor.
Defined.

(** C9.  If occupiedBy and occupiedAt of every seat are both null when the
    seat is free and both set when it is occupied, the same holds of the
    ledger after bookSeats, cancel or resetAll, whatever the answer. *)
Theorem C9_consistency_preserved (op : operation) (db : ledger) :
  Forall (fun s => consistent s = true) db ->
  Forall (fun s => consistent s = true) (snd (run (handler op) db)).
Proof.
  intros H. destruct op as [numSeats userId now racing|seatId userId|];
    simpl handler.
  - rewrite run_bookSeats. destruct (selectSeats numSeats db) as [ids|];
      [|exact H]. simpl.
    destruct (verifyAvailabilityQuery ids (apply_updates racing db) >? 0);
      simpl.
    + now apply apply_updates_consistent.
    + now apply (apply_update_consistent (updateQuery userId now ids)),
        apply_updates_consistent.
  - destruct (int4 seatId) eqn:Ei;
      [|now rewrite run_cancel_out_of_range].
    rewrite run_cancel by exact Ei.
    destruct (seatQuery seatId db) as [|seat rest]; [exact H|].
    destruct (negb (same_user (booked_by seat) userId)); [exact H|].
    now apply (apply_update_consistent (freeSeat seatId)).
  - rewrite run_resetAll. now apply (apply_update_consistent freeAll).
Qed.

Lemma C9_witness :
  Forall (fun s => consistent s = true)
         (snd (run (handler (OpBookSeats 3 7 61 [freeSeat 22])) layout_spill)).
Proof.
  apply (C9_consistency_preserved (OpBookSeats 3 7 61 [freeSeat 22])
           layout_spill).
  repeat constructor.
Defined.

(** C10.  When bookSeats answers with assigned seats, the list has exactly
    numSeats rows, no identifier occurs twice, and every row is a seat of
    the ledger that the selection read, unoccupied there. *)
Theorem C10_assigned_seats (db db' : ledger) (numSeats userId now : Z)
    (racing : list update) (bookedSeats : list (Z * Z * Z)) :
  wf_layout db -> 1 <= numSeats ->
  run (bookSeats numSeats userId now racing) db
  = (Assigned bookedSeats, db') ->
  length bookedSeats = Z.to_nat numSeats
  /\ NoDup (map (fun x => fst (fst x)) bookedSeats)
  /\ (forall i r p, In (i, r, p) bookedSeats ->
        exists s, In s db /\ is_booked s = false
                  /\ id s = i /\ row_number s = r /\ seat_number s = p).
Proof.
  intros Hwf Hn Hrun. rewrite run_bookSeats in Hrun.
  destruct (selectSeats numSeats db) as [ids|] eqn:Hsel; [|discriminate].
  simpl in Hrun.
  destruct (verifyAvailabilityQuery ids (apply_updates racing db) >? 0);
    [discriminate|].
  injection Hrun as <- _. rewrite returning_apply_updates.
  destruct (selectSeats_sound db Hwf numSeats ids Hn Hsel)
    as (seats & -> & Hl & Hnd & Hall).
  assert (Hperm : Permutation
                    (filter (fun s => ANY (map id seats) (id s)) db) seats).
  { apply rows_of_ids; [apply Hwf | exact Hnd|].
    eapply Forall_impl; [|exact Hall]. simpl. intros s Hs.
    now apply unbooked_In in Hs. }
  unfold returning. split; [|split].
  - now rewrite length_map, (Permutation_length Hperm).
  - rewrite map_map. simpl. apply NoDup_map_filter, Hwf.
  - intros i r p Hin. apply in_map_iff in Hin.
    destruct Hin as (s & [= <- <- <-] & Hs).
    apply (Permutation_in _ Hperm) in Hs.
    rewrite Forall_forall in Hall. apply Hall, unbooked_In in Hs.
    exists s. tauto.
Qed.

Lemma C10_witness :
  length [(12, 1, 2); (21, 2, 1); (23, 2, 3)] = Z.to_nat 3
  /\ NoDup (map (fun x => fst (fst x)) [(12, 1, 2); (21, 2, 1); (23, 2, 3)])
  /\ (forall i r p, In (i, r, p) [(12, 1, 2); (21, 2, 1); (23, 2, 3)] ->
        exists s, In s layout_spill /\ is_booked s = false
                  /\ id s = i /\ row_number s = r /\ seat_number s = p).
Proof.
  apply (C10_assigned_seats layout_spill
           (snd (run (bookSeats 3 7 61 []) layout_spill)) 3 7 61 []).
  - apply wf_layoutb_sound. reflexivity.
  - lia.
  - reflexivity.
Defined.

(** * Further properties of the handlers *)

(** ** What the three writing handlers keep *)

Lemma layout_apply_update (u : update) (db : ledger) :
  layout_of (apply_update u db) = layout_of db.
Proof.
  unfold layout_of. destruct u as [userId now ids|seatId|]; simpl;
    rewrite map_map; apply map_ext; intros s; simpl.
  - destruct (ANY ids (id s)); reflexivity.
  - destruct (id s =? seatId); reflexivity.
  - reflexivity.
Qed.

Lemma layout_apply_updates (us : list update) (db : ledger) :
  layout_of (apply_updates us db) = layout_of db.
Proof.
  revert db. induction us as [|u us IH]; intros db; [reflexivity|].
  simpl. unfold apply_updates in IH. now rewrite IH, layout_apply_update.
Qed.

Lemma wf_layout_of (db db' : ledger) :
  layout_of db' = layout_of db -> wf_layout db -> wf_layout db'.
Proof.
  unfold wf_layout, layout_of. intros E [H1 H2].
  assert (E1 : map id db' = map id db).
  { apply (f_equal (map (fun x => fst (fst x)))) in E.
    now rewrite !map_map in E. }
  assert (E2 : map (fun s => (row_number s, seat_number s)) db'
               = map (fun s => (row_number s, seat_number s)) db).
  { apply (f_equal (map (fun x => (snd (fst x), snd x)))) in E.
    now rewrite !map_map in E. }
  now rewrite E1, E2.
Qed.

(** X1.  No request to book, cancel or reset ever adds, removes or
    renumbers a seat: the table holds the same (identifier, row, position)
    triples after it as before, each as often, whatever the answer and
    whatever other sessions commit; so the table constraints keep holding.
    Nothing is said of the order in which a later scan returns the
    rows. *)
Theorem X1_seats_are_never_added_or_removed (op : operation) (db : ledger) :
  Permutation (layout_of (snd (run (handler op) db))) (layout_of db)
  /\ (wf_layout db -> wf_layout (snd (run (handler op) db))).
Proof.
  assert (H : layout_of (snd (run (handler op) db)) = layout_of db).
  { destruct op as [numSeats userId now racing|seatId userId|];
      simpl handler.
    - rewrite run_bookSeats.
      destruct (selectSeats numSeats db) as [ids|]; [|reflexivity].
      cbv zeta.
      destruct (verifyAvailabilityQuery ids (apply_updates racing db) >? 0);
        cbn [snd].
      + apply layout_apply_updates.
      + now rewrite (layout_apply_update (updateQuery userId now ids)),
          layout_apply_updates.
    - destruct (int4 seatId) eqn:Ei;
        [|now rewrite run_cancel_out_of_range].
      rewrite run_cancel by exact Ei.
      destruct (seatQuery seatId db) as [|seat rest]; [reflexivity|].
      destruct (negb (same_user (booked_by seat) userId)); [reflexivity|].
      cbn [snd]. apply (layout_apply_update (freeSeat seatId)).
    - rewrite run_resetAll. cbn [snd].
      apply (layout_apply_update freeAll). }
  split; [now rewrite H | now apply wf_layout_of].
Qed.

Lemma Forall2_map_r {A B : Type} (R : A -> B -> Prop) (f : A -> B)
    (l : list A) :
  (forall x, In x l -> R x (f x)) -> Forall2 R l (map f l).
Proof.
  induction l as [|a l IH]; simpl; intros H; constructor; auto.
Qed.

Lemma verify_zero (ids : list Z) (db : ledger) :
  (verifyAvailabilityQuery ids db >? 0) = false ->
  forall s, In s db -> ANY ids (id s) = true -> is_booked s = false.
Proof.
  intros H s Hs Hid. apply not_true_is_false. intros Hb.
  assert ((verifyAvailabilityQuery ids db >? 0) = true); [|congruence].
  apply verify_positive. exists s. now rewrite <- ANY_In.
Qed.

(** The ledger and the candidates behind an Assigned answer. *)
Lemma run_bookSeats_assigned (numSeats userId now : Z)
    (racing : list update) (db db' : ledger)
    (bookedSeats : list (Z * Z * Z)) :
  run (bookSeats numSeats userId now racing) db
  = (Assigned bookedSeats, db') ->
  exists ids,
    selectSeats numSeats db = Some ids
    /\ (forall s, In s (apply_updates racing db) -> ANY ids (id s) = true ->
                  is_booked s = false)
    /\ bookedSeats = returning ids (apply_updates racing db)
    /\ db' = apply_update (updateQuery userId now ids)
                          (apply_updates racing db).
Proof.
  rewrite run_bookSeats.
  destruct (selectSeats numSeats db) as [ids|]; [|discriminate]. simpl.
  destruct (verifyAvailabilityQuery ids (apply_updates racing db) >? 0)
    eqn:E; [discriminate|].
  intros [= <- <-]. exists ids. split; [reflexivity|].
  split; [now apply verify_zero | auto].
Qed.

(** X2.  A booking that succeeds never takes a seat from its holder:
    every seat that was occupied when the locks were granted is exactly
    as it was, and every seat that did change was free and is now held by
    the requester since the time of the request. *)
Theorem X2_booking_never_overwrites_a_holder (numSeats userId now : Z)
    (racing : list update) (db db' : ledger)
    (bookedSeats : list (Z * Z * Z)) :
  run (bookSeats numSeats userId now racing) db
  = (Assigned bookedSeats, db') ->
  Forall2
    (fun s s' =>
       (is_booked s = true -> s' = s)
       /\ (s' <> s ->
           is_booked s = false
           /\ s' = mkSeat (id s) (row_number s) (seat_number s)
                          true (Some userId) (Some now)))
    (apply_updates racing db) db'.
Proof.
  intros Hrun.
  destruct (run_bookSeats_assigned _ _ _ _ _ _ _ Hrun)
    as (ids & _ & Hfree & _ & ->).
  simpl. apply Forall2_map_r. intros s Hs.
  destruct (ANY ids (id s)) eqn:E.
  - rewrite (Hfree s Hs E). split; [discriminate|]. intros _.
    split; reflexivity.
  - split; [reflexivity|]. intros H. contradiction.
Qed.

Lemma X2_witness :
  Forall2
    (fun s s' =>
       (is_booked s = true -> s' = s)
       /\ (s' <> s ->
           is_booked s = false
           /\ s' = mkSeat (id s) (row_number s) (seat_number s)
                          true (Some 7) (Some 61)))
    (apply_updates [updateQuery 9 60 [4]] layout_2x3)
    (snd (run (bookSeats 2 7 61 [updateQuery 9 60 [4]]) layout_2x3)).
Proof.
  apply (X2_booking_never_overwrites_a_holder 2 7 61 [updateQuery 9 60 [4]]
           layout_2x3 _ [(1, 1, 1); (2, 1, 2)]).
  reflexivity.
Defined.

(** The rows that an update WHERE id = ANY(ids) touches, for the
    identifiers of a selection: exactly numSeats. *)
Lemma selected_rows_count (db : ledger) (numSeats : Z) (ids : list Z)
    (us : list update) :
  wf_layout db -> 1 <= numSeats ->
  selectSeats numSeats db = Some ids ->
  length (filter (fun s => ANY ids (id s)) (apply_updates us db))
  = Z.to_nat numSeats.
Proof.
  intros Hwf Hn Hsel.
  destruct (selectSeats_sound db Hwf numSeats ids Hn Hsel)
    as (seats & -> & Hl & Hnd & Hall).
  transitivity (length (returning (map id seats) (apply_updates us db)));
    [unfold returning; now rewrite length_map|].
  rewrite returning_apply_updates. unfold returning. rewrite length_map.
  rewrite <- Hl. apply Permutation_length, rows_of_ids;
    [apply Hwf | exact Hnd|].
  eapply Forall_impl; [|exact Hall]. simpl. intros s Hs.
  now apply unbooked_In in Hs.
Qed.

Lemma unbooked_after_updateQuery (userId now : Z) (ids : list Z)
    (l : ledger) :
  (forall s, In s l -> ANY ids (id s) = true -> is_booked s = false) ->
  COUNT (unbooked (apply_update (updateQuery userId now ids) l))
  = COUNT (unbooked l) - COUNT (filter (fun s => ANY ids (id s)) l).
Proof.
  unfold COUNT, unbooked. induction l as [|a l IH]; intros H; [reflexivity|].
  assert (IH' := IH (fun s Hs => H s (or_intror Hs))).
  simpl in *. destruct (ANY ids (id a)) eqn:E; simpl.
  - rewrite (H a (or_introl eq_refl) E). simpl length. lia.
  - destruct (is_booked a); simpl length; lia.
Qed.

(** X3.  A booking that succeeds lowers the number of unoccupied seats by
    exactly numSeats, counted from the ledger as it stood when the locks
    were granted. *)
Theorem X3_booking_takes_exactly_numSeats (numSeats userId now : Z)
    (racing : list update) (db db' : ledger)
    (bookedSeats : list (Z * Z * Z)) :
  wf_layout db -> 1 <= numSeats ->
  run (bookSeats numSeats userId now racing) db
  = (Assigned bookedSeats, db') ->
  COUNT (unbooked db')
  = COUNT (unbooked (apply_updates racing db)) - numSeats.
Proof.
  intros Hwf Hn Hrun.
  destruct (run_bookSeats_assigned _ _ _ _ _ _ _ Hrun)
    as (ids & Hsel & Hfree & _ & ->).
  rewrite unbooked_after_updateQuery by exact Hfree.
  pose proof (selected_rows_count db numSeats ids racing Hwf Hn Hsel) as Hc.
  unfold COUNT. rewrite Hc. lia.
Qed.

Lemma X3_witness :
  COUNT (unbooked
           (snd (run (bookSeats 3 7 61 [updateQuery 9 60 [31]])
                     layout_spill)))
  = COUNT (unbooked (apply_updates [updateQuery 9 60 [31]] layout_spill)) - 3.
Proof.
  apply (X3_booking_takes_exactly_numSeats 3 7 61 [updateQuery 9 60 [31]]
           layout_spill _ [(12, 1, 2); (21, 2, 1); (23, 2, 3)]).
  - apply wf_layoutb_sound. reflexivity.
  - lia.
  - reflexivity.
Defined.

(** ** Cancelling *)

Lemma released_in_range (seatId userId j : Z) (db db' : ledger) :
  run (cancel seatId userId) db = (Released j, db') -> int4 seatId = true.
Proof.
  destruct (int4 seatId) eqn:Ei; [reflexivity|].
  now rewrite run_cancel_out_of_range.
Qed.

Lemma integer_ids_In (db : ledger) (s : seat) :
  integer_ids db -> In s db -> int4 (id s) = true.
Proof. unfold integer_ids. rewrite Forall_forall. auto. Qed.

Lemma run_cancel_released (seatId userId j : Z) (db db' : ledger) :
  run (cancel seatId userId) db = (Released j, db') ->
  j = seatId
  /\ db' = apply_update (freeSeat seatId) db
  /\ exists s, In s db /\ id s = seatId /\ is_booked s = true
               /\ booked_by s = Some userId.
Proof.
  intros Hrun. pose proof (released_in_range _ _ _ _ _ Hrun) as Ei.
  revert Hrun. rewrite run_cancel by exact Ei.
  destruct (seatQuery seatId db) as [|seat rest] eqn:E; [discriminate|].
  destruct (same_user (booked_by seat) userId) eqn:Eu; simpl;
    [|discriminate].
  intros [= <- <-]. split; [reflexivity|]. split; [reflexivity|].
  assert (H : In seat (seatQuery seatId db)) by (rewrite E; now left).
  apply filter_In in H. destruct H as [H1 H2].
  apply andb_true_iff in H2. destruct H2 as [H2 H3].
  exists seat. split; [exact H1|]. split; [now apply Z.eqb_eq|].
  split; [exact H3|].
  unfold same_user in Eu. destruct (booked_by seat) as [u|]; [|discriminate].
  apply Z.eqb_eq in Eu. now subst.
Qed.

Lemma unbooked_after_freeSeat (l : ledger) (s : seat) :
  NoDup (map id l) -> In s l -> is_booked s = true ->
  COUNT (unbooked (apply_update (freeSeat (id s)) l))
  = COUNT (unbooked l) + 1.
Proof.
  unfold COUNT, unbooked. simpl.
  induction l as [|a l IH]; intros Hnd Hin Hb; [destruct Hin|].
  pose proof (same_id_same_seat _ s a Hnd Hin (or_introl eq_refl)) as Hsa.
  inversion Hnd as [|? ? Hn Hd]; subst. simpl.
  destruct (Z.eqb_spec (id a) (id s)) as [E|E].
  - rewrite <- (Hsa (eq_sym E)), Hb. simpl.
    rewrite (map_ext_in _ (fun t => t)), map_id; [simpl length; lia|].
    intros t Ht. destruct (Z.eqb_spec (id t) (id s)) as [E'|]; [|reflexivity].
    exfalso. apply Hn. rewrite E, <- E'. now apply in_map.
  - destruct Hin as [->|Hin]; [contradiction|].
    specialize (IH Hd Hin Hb).
    destruct (is_booked a); simpl length; lia.
Qed.

(** X4.  A cancel that succeeds frees exactly one seat, and a second
    cancel of the same seat, by anyone, is NotFound and writes nothing. *)
Theorem X4_cancel_frees_one_seat_once (db db' : ledger)
    (seatId userId j : Z) :
  wf_layout db ->
  run (cancel seatId userId) db = (Released j, db') ->
  COUNT (unbooked db') = COUNT (unbooked db) + 1
  /\ (forall anyUser, run (cancel seatId anyUser) db' = (NotFound, db')).
Proof.
  intros [Hids _] Hrun.
  pose proof (released_in_range _ _ _ _ _ Hrun) as Ei.
  destruct (run_cancel_released _ _ _ _ _ Hrun)
    as (_ & -> & s & Hs & <- & Hb & _).
  split.
  - now apply unbooked_after_freeSeat.
  - intros anyUser.
    rewrite run_cancel, seatQuery_none; [reflexivity | | exact Ei].
    simpl. intros t Ht Hid. apply in_map_iff in Ht.
    destruct Ht as (t0 & <- & _).
    destruct (id t0 =? id s) eqn:E; [reflexivity|].
    simpl in Hid. apply Z.eqb_neq in E. contradiction.
Qed.

Lemma X4_witness :
  COUNT (unbooked (snd (run (cancel 22 8) layout_spill)))
  = COUNT (unbooked layout_spill) + 1
  /\ (forall anyUser,
        run (cancel 22 anyUser) (snd (run (cancel 22 8) layout_spill))
        = (NotFound, snd (run (cancel 22 8) layout_spill))).
Proof.
  apply (X4_cancel_frees_one_seat_once layout_spill _ 22 8 22).
  - apply wf_layoutb_sound. reflexivity.
  - reflexivity.
Defined.

Lemma ids_apply_update (u : update) (db : ledger) :
  map id (apply_update u db) = map id db.
Proof.
  pose proof (layout_apply_update u db) as E. unfold layout_of in E.
  apply (f_equal (map (fun x => fst (fst x)))) in E.
  now rewrite !map_map in E.
Qed.

Lemma ids_apply_updates (us : list update) (db : ledger) :
  map id (apply_updates us db) = map id db.
Proof.
  pose proof (layout_apply_updates us db) as E. unfold layout_of in E.
  apply (f_equal (map (fun x => fst (fst x)))) in E.
  now rewrite !map_map in E.
Qed.

Lemma cancel_each_all (userId : Z) (seatIds : list Z) :
  forall cur : ledger,
    NoDup (map id cur) -> NoDup seatIds ->
    (forall i, In i seatIds -> int4 i = true) ->
    (forall i, In i seatIds ->
       exists s, In s cur /\ id s = i /\ is_booked s = true
                 /\ booked_by s = Some userId) ->
    cancel_each userId seatIds cur
    = (map Released seatIds,
       map (fun s => if ANY seatIds (id s) then set_free s else s) cur).
Proof.
  induction seatIds as [|i rest IH]; intros cur Hids Hnd Hrange Hall.
  - simpl. now rewrite map_id.
  - inversion Hnd as [|? ? Hni Hnd']; subst.
    pose proof (Hrange i (or_introl eq_refl)) as Ei.
    destruct (Hall i (or_introl eq_refl)) as (s & Hs & <- & Hb & Hby).
    cbn [cancel_each].
    rewrite run_cancel, seatQuery_unique, Hby by assumption.
    cbn [same_user]. rewrite Z.eqb_refl. cbn [negb].
    rewrite IH; [| |exact Hnd'| |].
    3: { intros j Hj. apply Hrange. now right. }
    + f_equal. cbn [apply_update]. rewrite map_map. apply map_ext.
      intros t. unfold ANY. cbn [existsb].
      destruct (Z.eqb_spec (id t) (id s)) as [E|E]; cbn [orb id set_free].
      * destruct (existsb (Z.eqb (id t)) rest) eqn:Er; [|reflexivity].
        exfalso. apply Hni. rewrite <- E. now apply ANY_In.
      * reflexivity.
    + now rewrite ids_apply_update.
    + intros j Hj. destruct (Hall j (or_intror Hj)) as (t & Ht & <- & Hbt).
      exists t. split; [|auto]. cbn [apply_update].
      apply in_map_iff. exists t. split; [|exact Ht].
      destruct (Z.eqb_spec (id t) (id s)) as [E|]; [|reflexivity].
      exfalso. apply Hni. now rewrite <- E.
Qed.

Lemma consistent_free (s : seat) :
  consistent s = true -> is_booked s = false -> set_free s = s.
Proof.
  destruct s as [i r p b by_ at_]. unfold consistent, set_free. simpl.
  intros H ->. destruct by_, at_; try discriminate. reflexivity.
Qed.

(** X5.  Booking and then cancelling is a round trip on a table whose
    identifiers are INTEGER values: when the requester cancels every seat
    of an Assigned answer, each cancel is Released and the ledger is again
    exactly the one the booking found when its locks were granted. *)
Theorem X5_cancelling_a_booking_restores_the_ledger
    (numSeats userId now : Z) (racing : list update) (db db' : ledger)
    (bookedSeats : list (Z * Z * Z)) :
  wf_layout db -> integer_ids db ->
  Forall (fun s => consistent s = true) db ->
  run (bookSeats numSeats userId now racing) db
  = (Assigned bookedSeats, db') ->
  cancel_each userId (map (fun x => fst (fst x)) bookedSeats) db'
  = (map Released (map (fun x => fst (fst x)) bookedSeats),
     apply_updates racing db).
Proof.
  intros [Hids _] Hint Hcons Hrun.
  destruct (run_bookSeats_assigned _ _ _ _ _ _ _ Hrun)
    as (ids & _ & Hfree & -> & ->).
  apply (apply_updates_consistent racing) in Hcons.
  assert (Hint1 : forall s, In s (apply_updates racing db) ->
                            int4 (id s) = true).
  { intros s Hs. apply (in_map id) in Hs.
    rewrite ids_apply_updates in Hs. apply in_map_iff in Hs.
    destruct Hs as (t & <- & Ht). now apply (integer_ids_In db). }
  rewrite <- (ids_apply_updates racing) in Hids.
  set (db1 := apply_updates racing db) in *.
  unfold returning. rewrite map_map. cbn [fst].
  change (map (fun x : seat => id x)
              (filter (fun s => ANY ids (id s)) db1))
    with (map id (filter (fun s => ANY ids (id s)) db1)).
  set (bids := map id (filter (fun s => ANY ids (id s)) db1)).
  assert (Hbids : forall s, In s db1 ->
                            ANY bids (id s) = ANY ids (id s)).
  { intros s Hs. apply eq_true_iff_eq. rewrite ANY_In. unfold bids.
    rewrite in_map_iff. split.
    - intros (t & E & Ht). apply filter_In in Ht. now rewrite <- E.
    - intros E. exists s. split; [reflexivity|]. now apply filter_In. }
  rewrite cancel_each_all.
  - apply (f_equal (pair _)). cbn [apply_update]. rewrite map_map.
    transitivity (map (fun s : seat => s) db1); [|apply map_id].
    apply map_ext_in. intros s Hs.
    rewrite Forall_forall in Hcons.
    destruct (ANY ids (id s)) eqn:E.
    + cbn [set_booked id]. rewrite (Hbids s Hs), E.
      apply (consistent_free s (Hcons s Hs) (Hfree s Hs E)).
    + now rewrite (Hbids s Hs), E.
  - now rewrite ids_apply_update.
  - apply NoDup_map_filter, Hids.
  - intros i Hi. unfold bids in Hi. apply in_map_iff in Hi.
    destruct Hi as (s & <- & Hs). apply filter_In in Hs.
    now apply Hint1.
  - intros i Hi. unfold bids in Hi. apply in_map_iff in Hi.
    destruct Hi as (s & <- & Hs). apply filter_In in Hs.
    destruct Hs as [Hs E].
    exists (set_booked userId now s). split; [|now split].
    cbn [apply_update]. apply in_map_iff. exists s. now rewrite E.
Qed.

Lemma X5_witness :
  cancel_each 7 (map (fun x => fst (fst x)) [(12, 1, 2); (21, 2, 1); (23, 2, 3)])
    (snd (run (bookSeats 3 7 61 [updateQuery 9 60 [31]]) layout_spill))
  = (map Released
         (map (fun x => fst (fst x)) [(12, 1, 2); (21, 2, 1); (23, 2, 3)]),
     apply_updates [updateQuery 9 60 [31]] layout_spill).
Proof.
  apply (X5_cancelling_a_booking_restores_the_ledger 3 7 61
           [updateQuery 9 60 [31]] layout_spill).
  - apply wf_layoutb_sound. reflexivity.
  - repeat constructor.
  - repeat constructor.
  - reflexivity.
Defined.

(** ** Resetting *)

(** X6.  reset-all answers Reset on every ledger and leaves every seat
    free with no holder and no time; nobody has a booking left and every
    seat counts as available; a second reset changes nothing more. *)
Theorem X6_reset_frees_every_seat (db : ledger) :
  let db' := snd (run resetAll db) in
  fst (run resetAll db) = Reset
  /\ Forall (fun s => is_booked s = false /\ booked_by s = None
                      /\ booked_at s = None) db'
  /\ COUNT (unbooked db') = COUNT db
  /\ (forall anyUser, snd (userBookings anyUser db') = [])
  /\ run resetAll db' = (Reset, db').
Proof.
  rewrite run_resetAll. cbn [fst snd apply_update].
  split; [reflexivity|]. split; [|split; [|split]].
  - apply Forall_map, Forall_forall. intros s _. now split.
  - unfold COUNT, unbooked. f_equal.
    rewrite forallb_filter_id; [apply length_map|].
    apply forallb_forall. intros s Hs. apply in_map_iff in Hs.
    now destruct Hs as (t & <- & _).
  - intros anyUser. unfold userBookings, userBookingsQuery. cbn [snd].
    rewrite filter_none; [reflexivity|].
    intros s Hs. apply in_map_iff in Hs. now destruct Hs as (t & <- & _).
  - rewrite run_resetAll. cbn [apply_update]. f_equal.
    rewrite map_map. reflexivity.
Qed.

(** ** GET /api/seats *)

Lemma join_at_most_one (users : list user) (b : option Z) :
  NoDup (map u_id users) ->
  (length (filter (fun u => same_user b (u_id u)) users) <= 1)%nat.
Proof.
  destruct b as [x|];
    [|intros _; rewrite filter_none; [simpl; lia | intros; reflexivity]].
  induction users as [|u users IH]; simpl; intros Hnd; [lia|].
  inversion Hnd as [|? ? Hn Hd]; subst.
  destruct (Z.eqb_spec x (u_id u)) as [E|E]; [|auto].
  rewrite filter_none; [simpl; lia|].
  intros v Hv. simpl. apply Z.eqb_neq. intros E'. apply Hn.
  rewrite <- E, E'. now apply in_map.
Qed.

Lemma left_join_one (users : list user) (s : seat) :
  NoDup (map u_id users) ->
  left_join_users users s = [(s, holder_email users s)].
Proof.
  intros Hnd. unfold left_join_users, holder_email.
  pose proof (join_at_most_one users (booked_by s) Hnd) as H.
  destruct (filter (fun u => same_user (booked_by s) (u_id u)) users)
    as [|u [|v us]]; try reflexivity.
  cbn [length] in H. lia.
Qed.

Lemma seats_join (users : list user) (db : ledger) :
  NoDup (map u_id users) ->
  flat_map (left_join_users users) db
  = map (fun s => (s, holder_email users s)) db.
Proof.
  intros Hnd. induction db as [|s db IH]; [reflexivity|].
  cbn [flat_map map]. now rewrite IH, left_join_one.
Qed.

Lemma seatsQuery_perm (users : list user) (db : ledger) :
  NoDup (map u_id users) ->
  Permutation (seatsQuery users db)
              (map (fun s => (s, holder_email users s)) db).
Proof.
  intros Hnd. unfold seatsQuery. rewrite seats_join by exact Hnd.
  apply ORDER_BY_perm.
Qed.

Lemma seatsQuery_seats (users : list user) (db : ledger) :
  NoDup (map u_id users) ->
  Permutation (map fst (seatsQuery users db)) db.
Proof.
  intros Hnd. rewrite (seatsQuery_perm users db Hnd), map_map. simpl.
  now rewrite map_id.
Qed.

Lemma COUNT_filter_fst {A B : Type} (f : A -> bool) (l : list (A * B)) :
  COUNT (filter (fun r => f (fst r)) l) = COUNT (filter f (map fst l)).
Proof.
  unfold COUNT. f_equal. induction l as [|a l IH]; simpl; [reflexivity|].
  destruct (f (fst a)); simpl; now rewrite IH.
Qed.

Lemma listing_available (users : list user) (db : ledger) :
  NoDup (map u_id users) ->
  availableSeats (listSeats users db) = COUNT (unbooked db).
Proof.
  intros Hnd. pose proof (seatsQuery_seats users db Hnd) as Hp.
  unfold listSeats. cbn [availableSeats].
  rewrite (COUNT_filter_fst (fun s => negb (is_booked s))).
  unfold COUNT, unbooked. f_equal. now apply filter_perm_length.
Qed.

(** X7.  With user identifiers unique, the totals of GET /api/seats count
    every seat once: totalSeats is the number of seats, availableSeats the
    number of unoccupied ones, and bookedSeats the rest. *)
Theorem X7_listing_totals (users : list user) (db : ledger) :
  NoDup (map u_id users) ->
  totalSeats (listSeats users db) = COUNT db
  /\ availableSeats (listSeats users db) = COUNT (unbooked db)
  /\ bookedSeats (listSeats users db) = COUNT db - COUNT (unbooked db).
Proof.
  intros Hnd. pose proof (seatsQuery_seats users db Hnd) as Hp.
  unfold listSeats. cbn [totalSeats availableSeats bookedSeats].
  assert (Ht : COUNT (seatsQuery users db) = COUNT db).
  { unfold COUNT. now rewrite <- (Permutation_length Hp), length_map. }
  split; [exact Ht|].
  split; [exact (listing_available users db Hnd)|].
  rewrite (COUNT_filter_fst is_booked).
  unfold COUNT, unbooked.
  rewrite (filter_perm_length _ _ _ Hp).
  pose proof (filter_length is_booked db). lia.
Qed.

Lemma X7_witness :
  totalSeats (listSeats two_users layout_spill) = COUNT layout_spill
  /\ availableSeats (listSeats two_users layout_spill)
     = COUNT (unbooked layout_spill)
  /\ bookedSeats (listSeats two_users layout_spill)
     = COUNT layout_spill - COUNT (unbooked layout_spill).
Proof.
  apply (X7_listing_totals two_users layout_spill).
  apply (nodupb_sound Z.eqb); [apply Z.eqb_refl | reflexivity].
Defined.

(** ** A request on its own *)

Lemma selectSeats_fails_iff (db : ledger) (numSeats : Z) :
  wf_layout db -> 1 <= numSeats ->
  (selectSeats numSeats db = None <-> COUNT (unbooked db) < numSeats).
Proof.
  intros Hwf Hn.
  destruct (selectSeats_cases db numSeats Hn)
    as [(G & rest & E & ->)|[(E & r & _ & Hpos & ->)|(E & Hnil & ->)]].
  - pose proof (tier1_needs_row db numSeats G rest E).
    pose proof (free_in_row_le db (cg_row_number G)).
    split; [discriminate | lia].
  - rewrite bestRowPlusNearby_spec by assumption.
    pose proof (free_in_row_le db r).
    destruct (Z.leb_spec numSeats (free_in_row db r)),
      (Z.leb_spec numSeats (COUNT (unbooked db)));
      split; try discriminate; try lia; reflexivity.
  - rewrite scattered_spec by lia.
    destruct (Z.leb_spec numSeats (COUNT (unbooked db)));
      split; try discriminate; try lia; reflexivity.
Qed.

Lemma selected_are_free (db : ledger) (numSeats : Z) (ids : list Z) :
  wf_layout db -> 1 <= numSeats ->
  selectSeats numSeats db = Some ids ->
  (verifyAvailabilityQuery ids db >? 0) = false.
Proof.
  intros Hwf Hn Hsel. apply not_true_is_false. intros H.
  apply verify_positive in H. destruct H as (s & Hs & Hid & Hb).
  destruct (selectSeats_sound db Hwf numSeats ids Hn Hsel)
    as (seats & -> & _ & _ & Hall).
  apply in_map_iff in Hid. destruct Hid as (t & E & Ht).
  rewrite Forall_forall in Hall. apply Hall, unbooked_In in Ht.
  destruct Ht as [Ht Hf].
  rewrite (same_id_same_seat db t s (proj1 Hwf) Ht Hs E) in Hf. congruence.
Qed.

(** X8.  A request that no other session races with is never answered
    ConcurrentConflict: it is Assigned when numSeats is at most the
    availableSeats that GET /api/seats reports for the same ledger, and
    InsufficientCapacity, with nothing written, when it is more. *)
Theorem X8_lone_request_follows_availableSeats (users : list user)
    (db : ledger) (numSeats userId now : Z) :
  NoDup (map u_id users) -> wf_layout db -> 1 <= numSeats ->
  (numSeats <= availableSeats (listSeats users db) ->
   exists bookedSeats db',
     run (bookSeats numSeats userId now []) db = (Assigned bookedSeats, db'))
  /\ (availableSeats (listSeats users db) < numSeats ->
      run (bookSeats numSeats userId now []) db = (InsufficientCapacity, db)).
Proof.
  intros Hu Hwf Hn. rewrite (listing_available users db Hu).
  rewrite run_bookSeats.
  pose proof (selectSeats_fails_iff db numSeats Hwf Hn) as Hiff.
  destruct (selectSeats numSeats db) as [ids|] eqn:Hsel.
  - cbv zeta. cbn [apply_updates fold_left].
    rewrite (selected_are_free db numSeats ids Hwf Hn Hsel).
    split; [eauto|]. intros Hlt. apply Hiff in Hlt. discriminate.
  - split; [|reflexivity]. intros Hle.
    pose proof (proj1 Hiff eq_refl). lia.
Qed.

Lemma X8_witness :
  (3 <= availableSeats (listSeats two_users layout_spill) ->
   exists bookedSeats db',
     run (bookSeats 3 7 61 []) layout_spill = (Assigned bookedSeats, db'))
  /\ (availableSeats (listSeats two_users layout_spill) < 3 ->
      run (bookSeats 3 7 61 []) layout_spill
      = (InsufficientCapacity, layout_spill)).
Proof.
  apply (X8_lone_request_follows_availableSeats two_users layout_spill 3 7 61).
  - apply (nodupb_sound Z.eqb); [apply Z.eqb_refl | reflexivity].
  - apply wf_layoutb_sound. reflexivity.
  - lia.
Defined.

(** ** The rows of GET /api/seats *)

Lemma row_entries_push (r k : Z) (e : seat_entry)
    (m : list (Z * list seat_entry)) :
  row_entries r (push_to_row k e m)
  = if k =? r
    then Some (match row_entries r m with
               | Some es => es ++ [e]
               | None => [e]
               end)
    else row_entries r m.
Proof.
  induction m as [|[k0 es] m IH]; cbn [push_to_row row_entries].
  - destruct (k =? r); reflexivity.
  - destruct (Z.eqb_spec k0 k) as [->|Hk]; cbn [row_entries].
    + destruct (k =? r); reflexivity.
    + rewrite IH. destruct (Z.eqb_spec k0 r) as [->|Hr]; [|reflexivity].
      destruct (Z.eqb_spec k r); [congruence | reflexivity].
Qed.

Lemma row_entries_fold (r : Z) (l : list (seat * option string)) :
  forall acc,
    row_entries r
      (fold_left
         (fun seatsByRow x =>
            push_to_row (row_number (fst x)) (entry_of x) seatsByRow)
         l acc)
    = match row_entries r acc,
            map entry_of (filter (fun x => row_number (fst x) =? r) l) with
      | None, [] => None
      | None, es => Some es
      | Some a, es => Some (a ++ es)
      end.
Proof.
  induction l as [|x l IH]; intros acc; cbn [fold_left filter map].
  - destruct (row_entries r acc); [now rewrite app_nil_r | reflexivity].
  - rewrite IH, row_entries_push.
    destruct (row_number (fst x) =? r); cbn [map].
    + destruct (row_entries r acc); [now rewrite <- app_assoc | reflexivity].
    + reflexivity.
Qed.

Lemma StronglySorted_filter {A : Type} (R : A -> A -> Prop)
    (f : A -> bool) (l : list A) :
  StronglySorted R l -> StronglySorted R (filter f l).
Proof.
  induction 1 as [|a l Hs IH Ha]; simpl; [constructor|].
  destruct (f a); [|exact IH]. constructor; [exact IH|].
  rewrite Forall_forall in *. intros x Hx. apply filter_In in Hx.
  now apply Ha.
Qed.

Lemma StronglySorted_map {A B : Type} (R : B -> B -> Prop) (f : A -> B)
    (l : list A) :
  StronglySorted (fun a b => R (f a) (f b)) l -> StronglySorted R (map f l).
Proof.
  induction 1 as [|a l Hs IH Ha]; simpl; constructor; [exact IH|].
  rewrite Forall_forall in *. intros y Hy.
  apply in_map_iff in Hy. destruct Hy as (x & <- & Hx). auto.
Qed.

Lemma StronglySorted_impl_in {A : Type} (R S : A -> A -> Prop)
    (l : list A) :
  (forall x y, In x l -> In y l -> R x y -> S x y) ->
  StronglySorted R l -> StronglySorted S l.
Proof.
  intros H Hs. induction Hs as [|a l Hs IH Ha]; constructor.
  - apply IH. intros x y Hx Hy. apply H; now right.
  - rewrite Forall_forall in *. intros y Hy.
    apply H; [now left | now right | auto].
Qed.

Lemma entry_of_holder (users : list user) (s : seat) :
  entry_of (s, holder_email users s) = entry_for users s.
Proof. reflexivity. Qed.

(** X9.  With user identifiers unique and the table constraints, the
    answer of GET /api/seats has under each row number exactly the seats
    of that row, each once, in position order; a row number without seats
    is no key.  A free seat is shown with bookedBy null, an occupied one
    with its holder's identifier and email. *)
Theorem X9_listing_rows (users : list user) (db : ledger) (r : Z) :
  NoDup (map u_id users) -> wf_layout db ->
  exists seats,
    (forall s, In s seats <-> In s db /\ row_number s = r)
    /\ StronglySorted position_lt seats
    /\ row_entries r (rows (listSeats users db))
       = match seats with
         | [] => None
         | _ => Some (map (entry_for users) seats)
         end.
Proof.
  intros Hu Hwf.
  set (J := seatsQuery users db).
  set (inrow := fun x : seat * option string => row_number (fst x) =? r).
  exists (map fst (filter inrow J)).
  pose proof (seatsQuery_perm users db Hu) as Hperm. fold J in Hperm.
  assert (HJ : forall x, In x J <-> exists s, In s db
                                     /\ x = (s, holder_email users s)).
  { intros x. split; intros H.
    - apply (Permutation_in _ Hperm), in_map_iff in H.
      destruct H as (s & <- & Hs). eauto.
    - destruct H as (s & Hs & ->).
      apply (Permutation_in _ (Permutation_sym Hperm)).
      apply (in_map (fun s => (s, holder_email users s))), Hs. }
  split; [|split].
  - intros s. rewrite in_map_iff. split.
    + intros (x & <- & Hx). apply filter_In in Hx. destruct Hx as [Hx Hr].
      apply HJ in Hx. destruct Hx as (t & Ht & ->).
      split; [exact Ht | now apply Z.eqb_eq].
    + intros [Hs Hr]. exists (s, holder_email users s).
      split; [reflexivity|]. apply filter_In.
      split; [apply HJ; eauto | now apply Z.eqb_eq].
  - apply (StronglySorted_impl_in row_position_lt).
    + intros x y Hx Hy. apply in_map_iff in Hx, Hy.
      destruct Hx as (x0 & <- & Hx), Hy as (y0 & <- & Hy).
      apply filter_In in Hx, Hy. unfold inrow in Hx, Hy.
      unfold row_position_lt, position_lt. lia.
    + apply (sorted_strengthen (fun s => (row_number s, seat_number s))
               (fun a b => by_row_seat a b = true)).
      * apply by_row_seat_strict.
      * apply StronglySorted_map, StronglySorted_filter.
        unfold J, seatsQuery. apply ORDER_BY_sorted.
        -- intros x y. apply by_row_seat_total.
        -- intros x y z. apply by_row_seat_trans.
      * rewrite map_map.
        apply (NoDup_map_filter
                 (fun x => (row_number (fst x), seat_number (fst x)))).
        apply (NoDup_perm_map _ _ _ (Permutation_sym Hperm)).
        rewrite map_map. apply Hwf.
  - unfold listSeats. cbn [rows]. fold J. rewrite row_entries_fold.
    cbn [row_entries]. fold inrow.
    assert (E : map entry_of (filter inrow J)
                = map (entry_for users) (map fst (filter inrow J))).
    { rewrite map_map. apply map_ext_in. intros x Hx.
      apply filter_In in Hx. destruct Hx as [Hx _]. apply HJ in Hx.
      now destruct Hx as (s & _ & ->). }
    rewrite E. destruct (filter inrow J); reflexivity.
Qed.

Lemma X9_witness :
  exists seats,
    (forall s, In s seats <-> In s layout_spill /\ row_number s = 2)
    /\ StronglySorted position_lt seats
    /\ row_entries 2 (rows (listSeats two_users layout_spill))
       = match seats with
         | [] => None
         | _ => Some (map (entry_for two_users) seats)
         end.
Proof.
  apply (X9_listing_rows two_users layout_spill 2).
  - apply (nodupb_sound Z.eqb); [apply Z.eqb_refl | reflexivity].
  - apply wf_layoutb_sound. reflexivity.
Defined.

(** ** GET /api/user/bookings *)

Lemma consistent_holder (s : seat) (u : Z) :
  consistent s = true -> booked_by s = Some u -> is_booked s = true.
Proof.
  unfold consistent. intros H Hby. rewrite Hby in H.
  destruct (is_booked s); [reflexivity | discriminate].
Qed.

Lemma userBookings_In (userId : Z) (db : ledger) (b : booking) :
  In b (snd (userBookings userId db))
  <-> exists s, In s db /\ booked_by s = Some userId
                /\ b = mkBooking (id s) (row_number s) (seat_number s)
                         (booked_at s).
Proof.
  unfold userBookings, userBookingsQuery. cbn [snd].
  rewrite in_map_iff. split.
  - intros (s & <- & Hs). apply ORDER_BY_In, filter_In in Hs.
    destruct Hs as [Hs Hu]. exists s. split; [exact Hs|].
    split; [|reflexivity]. unfold same_user in Hu.
    destruct (booked_by s) as [v|]; [|discriminate].
    apply Z.eqb_eq in Hu. now subst.
  - intros (s & Hs & Hby & ->). exists s. split; [reflexivity|].
    apply ORDER_BY_In, filter_In. split; [exact Hs|].
    rewrite Hby. apply Z.eqb_refl.
Qed.

(** X10.  After a booking that succeeds, the requester's bookings are the
    ones held when the locks were granted together with every assigned
    seat, each stamped with the time of the request; the bookings of
    every other user are the same list as before. *)
Theorem X10_bookings_after_booking (numSeats userId now : Z)
    (racing : list update) (db db' : ledger)
    (bookedSeats : list (Z * Z * Z)) :
  Forall (fun s => consistent s = true) db ->
  run (bookSeats numSeats userId now racing) db
  = (Assigned bookedSeats, db') ->
  (forall b,
      In b (snd (userBookings userId db'))
      <-> In b (snd (userBookings userId (apply_updates racing db)))
          \/ exists i r p, In (i, r, p) bookedSeats
                           /\ b = mkBooking i r p (Some now))
  /\ (forall other, other <> userId ->
        userBookings other db'
        = userBookings other (apply_updates racing db)).
Proof.
  intros Hcons Hrun.
  destruct (run_bookSeats_assigned _ _ _ _ _ _ _ Hrun)
    as (ids & _ & Hfree & -> & ->).
  apply (apply_updates_consistent racing) in Hcons.
  set (db1 := apply_updates racing db) in *.
  rewrite Forall_forall in Hcons.
  assert (Hheld : forall s u, In s db1 -> booked_by s = Some u ->
                              ANY ids (id s) = false).
  { intros s u Hs Hby. apply not_true_is_false. intros E.
    pose proof (consistent_holder s u (Hcons s Hs) Hby).
    rewrite (Hfree s Hs E) in *. discriminate. }
  split.
  - intros b. rewrite !userBookings_In. cbn [apply_update]. split.
    + intros (s' & Hs' & Hby & ->). apply in_map_iff in Hs'.
      destruct Hs' as (s & <- & Hs).
      destruct (ANY ids (id s)) eqn:E.
      * right. exists (id s), (row_number s), (seat_number s).
        split; [|reflexivity]. unfold returning.
        apply (in_map (fun s => (id s, row_number s, seat_number s))).
        now apply filter_In.
      * left. eauto.
    + intros [(s & Hs & Hby & ->)|(i & r & p & Hin & ->)].
      * exists s. split; [|auto]. apply in_map_iff. exists s.
        now rewrite (Hheld s userId Hs Hby).
      * unfold returning in Hin. apply in_map_iff in Hin.
        destruct Hin as (s & [= <- <- <-] & Hs). apply filter_In in Hs.
        destruct Hs as [Hs E]. exists (set_booked userId now s).
        split; [|now split]. apply in_map_iff. exists s. now rewrite E.
  - intros other Hne. unfold userBookings, userBookingsQuery.
    cbn [apply_update]. do 3 f_equal.
    rewrite filter_map_swap.
    rewrite (filter_ext_in _ (fun s => same_user (booked_by s) other)).
    + rewrite <- (map_id (filter _ db1)) at 2. apply map_ext_in.
      intros s Hs. apply filter_In in Hs. destruct Hs as [Hs Hu].
      unfold same_user in Hu. destruct (booked_by s) as [v|] eqn:Hby;
        [|discriminate].
      now rewrite (Hheld s v Hs Hby).
    + intros s Hs. destruct (ANY ids (id s)) eqn:E; [|reflexivity].
      cbn [set_booked booked_by same_user].
      destruct (booked_by s) as [v|] eqn:Hby.
      * rewrite (Hheld s v Hs Hby) in E. discriminate.
      * cbn [same_user]. now apply Z.eqb_neq.
Qed.

Lemma X10_witness :
  (forall b,
      In b (snd (userBookings 8
                   (snd (run (bookSeats 3 8 61 [freeSeat 32]) layout_spill))))
      <-> In b (snd (userBookings 8 (apply_updates [freeSeat 32] layout_spill)))
          \/ exists i r p, In (i, r, p) [(12, 1, 2); (21, 2, 1); (23, 2, 3)]
                           /\ b = mkBooking i r p (Some 61))
  /\ (forall other, other <> 8 ->
        userBookings other
          (snd (run (bookSeats 3 8 61 [freeSeat 32]) layout_spill))
        = userBookings other (apply_updates [freeSeat 32] layout_spill)).
Proof.
  apply (X10_bookings_after_booking 3 8 61 [freeSeat 32] layout_spill).
  - repeat constructor.
  - reflexivity.
Defined.

(** X11.  With the table constraints, INTEGER identifiers and consistent
    occupancy columns, GET /api/user/bookings lists exactly the seats the
    user can cancel: a cancel of a listed seat is Released and takes that
    seat, and only that seat, off the user's list; a cancel of any other
    seatId writes nothing, and is NotFound or Forbidden when seatId is an
    INTEGER value and StorageError when it is not. *)
Theorem X11_bookings_are_the_cancellable_seats (db : ledger)
    (seatId userId : Z) :
  wf_layout db -> integer_ids db ->
  Forall (fun s => consistent s = true) db ->
  (In seatId (map b_seatId (snd (userBookings userId db))) ->
   fst (run (cancel seatId userId) db) = Released seatId
   /\ forall b,
        In b (snd (userBookings userId (snd (run (cancel seatId userId) db))))
        <-> In b (snd (userBookings userId db)) /\ b_seatId b <> seatId)
  /\ (~ In seatId (map b_seatId (snd (userBookings userId db))) ->
      if int4 seatId
      then run (cancel seatId userId) db = (NotFound, db)
           \/ run (cancel seatId userId) db = (Forbidden, db)
      else run (cancel seatId userId) db = (StorageError, db)).
Proof.
  intros [Hids _] Hint Hcons. rewrite Forall_forall in Hcons. split.
  - intros Hin. apply in_map_iff in Hin. destruct Hin as (b0 & <- & Hb0).
    apply userBookings_In in Hb0. destruct Hb0 as (s & Hs & Hby & ->).
    cbn [b_seatId].
    pose proof (consistent_holder s userId (Hcons s Hs) Hby) as Hb.
    pose proof (integer_ids_In db s Hint Hs) as Ei.
    rewrite run_cancel, seatQuery_unique, Hby by assumption.
    cbn [same_user]. rewrite Z.eqb_refl. cbn [negb fst snd apply_update].
    split; [reflexivity|].
    intros b. rewrite !userBookings_In. split.
    + intros (t' & Ht' & Hby' & ->). apply in_map_iff in Ht'.
      destruct Ht' as (t & <- & Ht).
      destruct (Z.eqb_spec (id t) (id s)) as [E|E]; [discriminate|].
      split; [eauto | exact E].
    + intros [(t & Ht & Hbyt & ->) Hne]. cbn [b_seatId] in Hne.
      exists t. split; [|auto]. apply in_map_iff. exists t.
      split; [|exact Ht].
      destruct (Z.eqb_spec (id t) (id s)); [contradiction | reflexivity].
  - intros Hnot. destruct (int4 seatId) eqn:Ei;
      [|now apply run_cancel_out_of_range].
    rewrite run_cancel by exact Ei.
    destruct (seatQuery seatId db) as [|seat rest] eqn:E; [now left|].
    destruct (same_user (booked_by seat) userId) eqn:Eu; [|now right].
    exfalso. apply Hnot.
    assert (H : In seat (seatQuery seatId db)) by (rewrite E; now left).
    apply filter_In in H. destruct H as [H1 H2].
    apply andb_true_iff in H2. destruct H2 as [H2 _].
    apply Z.eqb_eq in H2. subst seatId.
    apply in_map_iff.
    exists (mkBooking (id seat) (row_number seat) (seat_number seat)
              (booked_at seat)).
    split; [reflexivity|]. apply userBookings_In. exists seat.
    split; [exact H1|]. split; [|reflexivity].
    unfold same_user in Eu. destruct (booked_by seat) as [v|];
      [|discriminate].
    apply Z.eqb_eq in Eu. now subst.
Qed.

Lemma X11_witness :
  (In 22 (map b_seatId (snd (userBookings 8 layout_spill))) ->
   fst (run (cancel 22 8) layout_spill) = Released 22
   /\ forall b,
        In b (snd (userBookings 8 (snd (run (cancel 22 8) layout_spill))))
        <-> In b (snd (userBookings 8 layout_spill)) /\ b_seatId b <> 22)
  /\ (~ In 22 (map b_seatId (snd (userBookings 8 layout_spill))) ->
      if int4 22
      then run (cancel 22 8) layout_spill = (NotFound, layout_spill)
           \/ run (cancel 22 8) layout_spill = (Forbidden, layout_spill)
      else run (cancel 22 8) layout_spill = (StorageError, layout_spill)).
Proof.
  apply (X11_bookings_are_the_cancellable_seats layout_spill 22 8).
  - apply wf_layoutb_sound. reflexivity.
  - repeat constructor.
  - repeat constructor.
Defined.

(** ** authenticateToken and the routes behind it *)

Lemma split_space_word (a : string) :
  no_space a = true -> split_space a = [a].
Proof.
  induction a as [|c a IH]; [reflexivity|].
  cbn [no_space split_space]. intros H. apply andb_true_iff in H.
  destruct H as [Hc Ha]. apply negb_true_iff in Hc. rewrite Hc.
  now rewrite (IH Ha).
Qed.

Lemma split_space_app (a b : string) :
  no_space a = true ->
  split_space (a ++ String " " b) = a :: split_space b.
Proof.
  induction a as [|c a IH]; [reflexivity|].
  cbn [no_space split_space append]. intros H. apply andb_true_iff in H.
  destruct H as [Hc Ha]. apply negb_true_iff in Hc. rewrite Hc.
  now rewrite (IH Ha).
Qed.

Lemma append_space_not_empty (a b : string) :
  String.eqb (a ++ String " " b) EmptyString = false.
Proof. destruct a; reflexivity. Qed.

Lemma token_of_second_word (scheme token : string) :
  no_space scheme = true -> no_space token = true ->
  token_of (Some (scheme ++ String " " token)%string) = Some token.
Proof.
  intros Hs Ht. unfold token_of.
  now rewrite append_space_not_empty, split_space_app, split_space_word.
Qed.

Lemma token_of_second_of_many (scheme token rest : string) :
  no_space scheme = true -> no_space token = true ->
  token_of (Some (scheme ++ String " " (token ++ String " " rest))%string)
  = Some token.
Proof.
  intros Hs Ht. unfold token_of.
  now rewrite append_space_not_empty, !split_space_app.
Qed.

Lemma token_of_missing (authHeader : option string) :
  authHeader = None
  \/ (exists w, authHeader = Some w /\ no_space w = true) ->
  authenticateToken (fun _ => None) authHeader = TokenRequired
  /\ forall jwt_verify,
       authenticateToken jwt_verify authHeader = TokenRequired.
Proof.
  intros [->|(w & -> & Hw)]; [now split|].
  assert (H : forall v, authenticateToken v (Some w) = TokenRequired).
  { intros v. unfold authenticateToken, token_of.
    destruct (String.eqb w EmptyString); [reflexivity|].
    now rewrite split_space_word. }
  split; [apply H | exact H].
Qed.

(** X12.  authenticateToken gives jwt.verify the second space-separated
    word of the Authorization header and nothing else: the first word (the
    scheme) is not compared with anything, words after the second are
    ignored, and an empty second word is answered 401 without a call to
    jwt.verify. *)
Theorem X12_token_is_the_second_word
    (jwt_verify : string -> option jwt_payload)
    (scheme token rest : string) :
  no_space scheme = true -> no_space token = true ->
  let answer :=
    if String.eqb token EmptyString then TokenRequired
    else match jwt_verify token with
         | None => InvalidToken
         | Some user => Next user
         end in
  authenticateToken jwt_verify (Some (scheme ++ " " ++ token)%string)
  = answer
  /\ authenticateToken jwt_verify
       (Some (scheme ++ " " ++ token ++ " " ++ rest)%string) = answer.
Proof.
  intros Hs Ht answer. unfold authenticateToken. cbn [append].
  now rewrite token_of_second_word, token_of_second_of_many.
Qed.

Lemma X12_witness :
  authenticateToken sample_verify (Some "Basic token-of-8"%string)
  = Next (mkPayload 8 "bob@example.org")
  /\ authenticateToken sample_verify (Some "Basic token-of-8 and more"%string)
     = Next (mkPayload 8 "bob@example.org").
Proof.
  exact (X12_token_is_the_second_word sample_verify "Basic" "token-of-8"
           "and more" eq_refl eq_refl).
Defined.

(** X13.  A request whose Authorization header is absent or a single word
    (a token sent without a scheme, for one) is answered 401 by
    book-seats, cancel and profile, whatever jwt.verify would say, and
    book-seats and cancel leave the connection as it was; reset-all has no
    middleware and frees every seat for the same request. *)
Theorem X13_requests_without_a_token
    (jwt_verify : string -> option jwt_payload)
    (authHeader : option string) :
  authHeader = None
  \/ (exists w, authHeader = Some w /\ no_space w = true) ->
  (forall numSeats now racing ss,
      route_book_seats jwt_verify authHeader numSeats now racing ss
      = (Rejected401, ss))
  /\ (forall seatId ss,
        route_cancel jwt_verify authHeader seatId ss = (Rejected401, ss))
  /\ (forall t, profile jwt_verify authHeader t = Rejected401)
  /\ (forall db,
        fst (route_reset_all authHeader (mkSession db None)) = Handled Reset
        /\ Forall (fun s => is_booked s = false)
             (committed (snd (route_reset_all authHeader
                                (mkSession db None))))).
Proof.
  intros H. destruct (token_of_missing authHeader H) as [_ Hno].
  specialize (Hno jwt_verify).
  unfold route_book_seats, route_cancel, behind_token, profile.
  rewrite Hno. repeat split.
  apply Forall_forall. intros s Hs. cbn in Hs.
  apply in_map_iff in Hs. destruct Hs as (s0 & <- & _). reflexivity.
Qed.

Lemma X13_witness :
  (forall numSeats now racing ss,
      route_book_seats sample_verify (Some "token-of-8"%string) numSeats now
        racing ss
      = (Rejected401, ss))
  /\ (forall seatId ss,
        route_cancel sample_verify (Some "token-of-8"%string) seatId ss
        = (Rejected401, ss))
  /\ (forall t, profile sample_verify (Some "token-of-8"%string) t = Rejected401)
  /\ (forall db,
        fst (route_reset_all (Some "token-of-8"%string) (mkSession db None))
        = Handled Reset
        /\ Forall (fun s => is_booked s = false)
             (committed (snd (route_reset_all (Some "token-of-8"%string)
                                (mkSession db None))))).
Proof.
  apply (X13_requests_without_a_token sample_verify (Some "token-of-8"%string)).
  right. exists "token-of-8"%string. split; reflexivity.
Defined.





(** ** Accounts *)

Lemma has_char_in_not_empty (lo hi : nat) (s : string) :
  has_char_in lo hi s = true -> String.eqb s EmptyString = false.
Proof. destruct s; [discriminate | reflexivity]. Qed.


Lemma filter_app_one {A : Type} (f : A -> bool) (l : list A) (a : A) :
  (forall x, In x l -> f x = false) -> f a = true ->
  filter f (l ++ [a]) = [a].
Proof.
  intros Hl Ha. rewrite filter_app, (filter_none f l Hl). cbn.
  now rewrite Ha.
Qed.

Section AccountLaws.
Variable isEmail : string -> bool.
Variable isLength_min8 : string -> bool.
Variable bcrypt_hash : string -> string -> string.
Variable bcrypt_compare : string -> string -> bool.
Variable jwt_sign : jwt_payload -> Z -> string.

Lemma signup_created (salt : string) (now : Z) (email password : string)
    (t : users_table) (i : Z) (token : string) :
  fst (signup isEmail isLength_min8 bcrypt_hash jwt_sign salt now email
         password t) = Created i token ->
  signup_valid isEmail isLength_min8 email password = true
  /\ users_by_email email t = []
  /\ i = u_next_id t
  /\ token = jwt_sign (mkPayload i email) now
  /\ snd (signup isEmail isLength_min8 bcrypt_hash jwt_sign salt now email
            password t)
     = mkUsers (u_rows t ++ [mkUser i email (bcrypt_hash salt password) now])
               (i + 1).
Proof.
  unfold signup.
  destruct (signup_valid isEmail isLength_min8 email password);
    [|discriminate].
  cbn [negb]. destruct (users_by_email email t); [|discriminate].
  cbn [fst snd]. intros [= <- <-]. repeat split.
Qed.


(** X16.  An account that signup has just created can log in: login with
    the same email and password answers with the id signup returned and a
    token for that id, given that bcrypt.compare accepts the password
    against the hash that was stored; a password that bcrypt.compare
    rejects against that hash never logs in. *)
Theorem X16_signup_then_login (salt : string) (now later : Z)
    (email password : string) (t : users_table) (i : Z) (token : string) :
  fst (signup isEmail isLength_min8 bcrypt_hash jwt_sign salt now email
         password t) = Created i token ->
  bcrypt_compare password (bcrypt_hash salt password) = true ->
  login isEmail bcrypt_compare jwt_sign later email password
    (snd (signup isEmail isLength_min8 bcrypt_hash jwt_sign salt now email
            password t))
  = LoggedIn i (jwt_sign (mkPayload i email) later)
  /\ forall other,
       bcrypt_compare other (bcrypt_hash salt password) = false ->
       forall j token',
         login isEmail bcrypt_compare jwt_sign later email other
           (snd (signup isEmail isLength_min8 bcrypt_hash jwt_sign salt now
                   email password t))
         <> LoggedIn j token'.
Proof.
  intros Hc Hcmp.
  destruct (signup_created _ _ _ _ _ _ _ Hc) as (Hv & Hnone & -> & _ & ->).
  assert (Hfound :
    users_by_email email
      (mkUsers (u_rows t ++ [mkUser (u_next_id t) email
                               (bcrypt_hash salt password) now])
               (u_next_id t + 1))
    = [mkUser (u_next_id t) email (bcrypt_hash salt password) now]).
  { unfold users_by_email. cbn [u_rows]. apply filter_app_one.
    - intros u Hu. apply not_true_is_false. intros E.
      assert (H : In u (users_by_email email t))
        by (apply filter_In; now split).
      now rewrite Hnone in H.
    - apply String.eqb_refl. }
  unfold login. rewrite Hfound. cbn [u_password u_id].
  unfold signup_valid in Hv. rewrite !andb_true_iff in Hv.
  destruct Hv as [[[[He _] Hl] _] _]. split.
  - unfold login_valid.
    rewrite He, (has_char_in_not_empty _ _ _ Hl), Hcmp. reflexivity.
  - intros other Ho j token'. rewrite Ho.
    destruct (negb (login_valid isEmail email other)); discriminate.
Qed.
End AccountLaws.


Lemma X16_witness :
  login sample_isEmail sample_compare sample_sign 30 "bob@example.org"
    "Passw0rd1"
    (snd (signup sample_isEmail sample_isLength_min8 sample_hash sample_sign
            "salt" 20 "bob@example.org" "Passw0rd1" sample_users))
  = LoggedIn 8 (sample_sign (mkPayload 8 "bob@example.org") 30)
  /\ forall other,
       sample_compare other (sample_hash "salt" "Passw0rd1") = false ->
       forall j token',
         login sample_isEmail sample_compare sample_sign 30
           "bob@example.org" other
           (snd (signup sample_isEmail sample_isLength_min8 sample_hash
                   sample_sign "salt" 20 "bob@example.org" "Passw0rd1"
                   sample_users))
         <> LoggedIn j token'.
Proof.
  apply (X16_signup_then_login sample_isEmail sample_isLength_min8
           sample_hash sample_compare sample_sign "salt" 20 30
           "bob@example.org" "Passw0rd1" sample_users 8 "token-of-8");
    reflexivity.
Defined.

(** X17.  The token that signup returns opens the routes behind
    authenticateToken: sent as [Bearer <token>] it is accepted with the id
    and email of the new account, and GET /api/user/profile answers with
    that id, that email and the time of the signup.  jwt.verify is taken
    to accept the token with the payload it was signed for, and the token
    to be one non-empty word. *)
Theorem X17_signup_token_opens_the_profile
    (isEmail isLength_min8 : string -> bool)
    (bcrypt_hash : string -> string -> string)
    (jwt_sign : jwt_payload -> Z -> string)
    (jwt_verify : string -> option jwt_payload)
    (salt : string) (now : Z) (email password : string) (t : users_table)
    (i : Z) (token : string) :
  wf_users t ->
  fst (signup isEmail isLength_min8 bcrypt_hash jwt_sign salt now email
         password t) = Created i token ->
  jwt_verify token = Some (mkPayload i email) ->
  no_space token = true ->
  token <> EmptyString ->
  authenticateToken jwt_verify (Some ("Bearer " ++ token)%string)
  = Next (mkPayload i email)
  /\ profile jwt_verify (Some ("Bearer " ++ token)%string)
       (snd (signup isEmail isLength_min8 bcrypt_hash jwt_sign salt now
               email password t))
     = Handled (Some (i, email, now)).
Proof.
  intros (_ & _ & Hseq) Hc Hver Hword Hne.
  destruct (signup_created _ _ _ _ _ _ _ _ _ _ _ Hc)
    as (_ & _ & -> & _ & ->).
  assert (Hauth : authenticateToken jwt_verify
                    (Some ("Bearer " ++ token)%string)
                  = Next (mkPayload (u_next_id t) email)).
  { unfold authenticateToken.
    change ("Bearer " ++ token)%string
      with ("Bearer" ++ String " " token)%string.
    rewrite token_of_second_word by (reflexivity || assumption).
    apply String.eqb_neq in Hne. now rewrite Hne, Hver. }
  split; [exact Hauth|]. unfold profile. rewrite Hauth.
  cbn [userId u_rows]. rewrite filter_app_one; [reflexivity | |].
  - rewrite Forall_forall in Hseq. intros u Hu. specialize (Hseq u Hu). lia.
  - cbn [u_id]. lia.
Qed.

Lemma X17_witness :
  authenticateToken sample_verify (Some "Bearer token-of-8"%string)
  = Next (mkPayload 8 "bob@example.org")
  /\ profile sample_verify (Some "Bearer token-of-8"%string)
       (snd (signup sample_isEmail sample_isLength_min8 sample_hash
               sample_sign "salt" 20 "bob@example.org" "Passw0rd1"
               sample_users))
     = Handled (Some (8, "bob@example.org"%string, 20)).
Proof.
  apply (X17_signup_token_opens_the_profile sample_isEmail
           sample_isLength_min8 sample_hash sample_sign sample_verify
           "salt" 20 "bob@example.org" "Passw0rd1" sample_users 8
           "token-of-8").
  - repeat split; repeat constructor; cbn; try lia; intuition discriminate.
  - reflexivity.
  - reflexivity.
  - reflexivity.
  - discriminate.
Defined.

(** ** The order of GET /api/user/bookings *)

Lemma insert_by_first {A : Type} (leb : A -> A -> bool) (x : A)
    (l : list A) :
  (forall y, In y l -> leb x y = true) -> insert_by leb x l = x :: l.
Proof.
  destruct l as [|y l]; [reflexivity|]. intros H. cbn [insert_by].
  now rewrite (H y (or_introl eq_refl)).
Qed.

Lemma insert_by_after {A : Type} (leb : A -> A -> bool) (x : A)
    (front back : list A) :
  (forall y, In y front -> leb x y = false) ->
  insert_by leb x (front ++ back) = front ++ insert_by leb x back.
Proof.
  induction front as [|y front IH]; [reflexivity|]. intros H.
  cbn [app insert_by]. rewrite (H y (or_introl eq_refl)).
  rewrite IH; [reflexivity|]. intros z Hz. apply H. now right.
Qed.

Lemma userBookingsQuery_after_update (userId now : Z) (ids : list Z)
    (db : ledger) :
  (forall s, In s db -> ANY ids (id s) = true ->
             booked_by s <> Some userId) ->
  (forall s, In s db -> booked_by s = Some userId ->
             exists t, booked_at s = Some t /\ t < now) ->
  userBookingsQuery userId (apply_update (updateQuery userId now ids) db)
  = map (set_booked userId now) (filter (fun s => ANY ids (id s)) db)
    ++ userBookingsQuery userId db.
Proof.
  unfold userBookingsQuery, ORDER_BY. cbn [apply_update].
  induction db as [|s db IH]; [reflexivity|]. intros Hsel Hold.
  assert (IH' := IH (fun t Ht => Hsel t (or_intror Ht))
                    (fun t Ht => Hold t (or_intror Ht))).
  clear IH. cbn [map filter].
  destruct (ANY ids (id s)) eqn:E.
  - cbn [set_booked booked_by same_user]. rewrite Z.eqb_refl.
    cbn [fold_right map app]. rewrite IH'.
    replace (same_user (booked_by s) userId) with false.
    + apply insert_by_first. intros y Hy.
      unfold by_booked_at_desc. cbn [set_booked booked_at].
      apply in_app_iff in Hy. destruct Hy as [Hy|Hy].
      * apply in_map_iff in Hy. destruct Hy as (y0 & <- & _).
        cbn [set_booked booked_at]. lia.
      * apply (Permutation_in _ (ORDER_BY_perm by_booked_at_desc _)) in Hy.
        apply filter_In in Hy. destruct Hy as [Hy Hu].
        unfold same_user in Hu. destruct (booked_by y) as [v|] eqn:Hby;
          [|discriminate].
        apply Z.eqb_eq in Hu. subst v.
        destruct (Hold y (or_intror Hy) Hby) as (t & -> & Ht). lia.
    + symmetry. apply not_true_is_false. intros Hu.
      apply (Hsel s (or_introl eq_refl) E).
      unfold same_user in Hu. destruct (booked_by s) as [v|];
        [|discriminate].
      apply Z.eqb_eq in Hu. now subst.
  - destruct (same_user (booked_by s) userId) eqn:Hu;
      cbn [fold_right]; rewrite IH'; [|reflexivity].
    apply insert_by_after. intros y Hy.
    apply in_map_iff in Hy. destruct Hy as (y0 & <- & _).
    unfold same_user in Hu. destruct (booked_by s) as [v|] eqn:Hby;
      [|discriminate].
    apply Z.eqb_eq in Hu. subst v.
    destruct (Hold s (or_introl eq_refl) Hby) as (t & Et & Ht).
    unfold by_booked_at_desc. rewrite Et. cbn [set_booked booked_at]. lia.
Qed.

(** X18.  When every seat the requester already holds was booked before
    the time of the request, the seats of a successful booking head the
    requester's list in GET /api/user/bookings: the list is the new
    bookings, in some order, followed by the bookings held before. *)
Theorem X18_new_bookings_are_listed_first (numSeats userId now : Z)
    (racing : list update) (db db' : ledger)
    (bookedSeats : list (Z * Z * Z)) :
  Forall (fun s => consistent s = true) db ->
  (forall s, In s (apply_updates racing db) -> booked_by s = Some userId ->
             exists t, booked_at s = Some t /\ t < now) ->
  run (bookSeats numSeats userId now racing) db
  = (Assigned bookedSeats, db') ->
  exists front back,
    snd (userBookings userId db') = front ++ back
    /\ Permutation front
         (map (fun x => mkBooking (fst (fst x)) (snd (fst x)) (snd x)
                          (Some now))
              bookedSeats)
    /\ Permutation back
         (snd (userBookings userId (apply_updates racing db))).
Proof.
  intros Hcons Hold Hrun.
  destruct (run_bookSeats_assigned _ _ _ _ _ _ _ Hrun)
    as (ids & _ & Hfree & -> & ->).
  apply (apply_updates_consistent racing) in Hcons.
  rewrite Forall_forall in Hcons.
  exists (map (fun x => mkBooking (fst (fst x)) (snd (fst x)) (snd x)
                          (Some now))
              (returning ids (apply_updates racing db))),
         (snd (userBookings userId (apply_updates racing db))).
  split; [|split; reflexivity].
  unfold userBookings. cbn [snd].
  rewrite userBookingsQuery_after_update.
  - rewrite map_app. f_equal. unfold returning. now rewrite !map_map.
  - intros s Hs E Hby.
    pose proof (consistent_holder s userId (Hcons s Hs) Hby).
    rewrite (Hfree s Hs E) in *. discriminate.
  - exact Hold.
Qed.

Lemma X18_witness :
  exists front back,
    snd (userBookings 8
           (snd (run (bookSeats 3 8 61 [freeSeat 32]) layout_spill)))
    = front ++ back
    /\ Permutation front
         (map (fun x => mkBooking (fst (fst x)) (snd (fst x)) (snd x)
                          (Some 61))
              [(12, 1, 2); (21, 2, 1); (23, 2, 3)])
    /\ Permutation back
         (snd (userBookings 8 (apply_updates [freeSeat 32] layout_spill))).
Proof.
  apply (X18_new_bookings_are_listed_first 3 8 61 [freeSeat 32]
           layout_spill).
  - repeat constructor.
  - intros s Hs Hby. cbn in Hs.
    repeat (destruct Hs as [<-|Hs]; [try discriminate|]);
      [|contradiction].
    exists 51. split; [reflexivity | lia].
  - reflexivity.
Defined.
